(** * call_backfill_cf: the call-export normaliser of [main.py]

    A shallow embedding of the Cloud Function in [src/main.py]: header
    resolution, timezone resolution, timestamp parsing, record mapping,
    the dedup fingerprint and the per-file control flow of [main].

    Python values are modelled as follows.
    - [str] is a list of Unicode code points ([list N]); string literals
      of the source are written with [lit].
    - [None] is [None]; a value that may be [None] is an [option].
    - a [dict] is a [gmap]; only lookups are observed by the code.
    - an exception is a constructor of [exn]; a function that can raise
      returns a [result].
    - the storage bucket, BigQuery and stdout are fields of [World]. *)

From Stdlib Require Import ZArith NArith List Lia Ascii String Bool.
From Stdlib Require Import DecimalString.
From stdpp Require Import base option list gmap.

Local Open Scope N_scope.

(** ** Python strings *)

Abbreviation pystr := (list N).

(** The named groups of a match of [re]: group name and matched text. *)
Abbreviation groups := (list (N * pystr)).

(** A literal of the source text (all literals of [main.py] other than
    the BOM and the no-break space are ASCII). *)
Fixpoint lit (s : string) : pystr :=
  match s with
  | EmptyString => []
  | String a r => N_of_ascii a :: lit r
  end.

Definition BOM : N := 65279.   (* U+FEFF, the byte-order mark *)
Definition NBSP : N := 160.    (* U+00A0, the no-break space *)

(** [str.isspace] on one character; also the class [\s] of [re] and the
    characters removed by [str.strip()]. *)
Definition isspace (c : N) : bool :=
  ((9 <=? c) && (c <=? 13)) || ((28 <=? c) && (c <=? 32))
  || (c =? 133) || (c =? 160) || (c =? 5760)
  || ((8192 <=? c) && (c <=? 8202))
  || (c =? 8232) || (c =? 8233) || (c =? 8239) || (c =? 8287) || (c =? 12288).

Fixpoint lstrip (s : pystr) : pystr :=
  match s with
  | c :: s' => if isspace c then lstrip s' else s
  | [] => []
  end.

Definition rstrip (s : pystr) : pystr := rev (lstrip (rev s)).

(** [s.strip()] *)
Definition strip (s : pystr) : pystr := rstrip (lstrip s).

(** [s.startswith(p)] *)
Fixpoint startswith (p s : pystr) : bool :=
  match p, s with
  | [], _ => true
  | a :: p', b :: s' => (a =? b) && startswith p' s'
  | _ :: _, [] => false
  end.

(** [c in s] for a one-character string [c]. *)
Definition contains (c : N) (s : pystr) : bool := existsb (N.eqb c) s.

(** [s.replace(old, new)] for a non-empty [old]: left to right, matches do
    not overlap.  [skip] counts the characters of a match still to be
    passed over. *)
Fixpoint replace_go (old new : pystr) (skip : nat) (s : pystr) : pystr :=
  match s with
  | [] => []
  | c :: s' =>
      match skip with
      | S k => replace_go old new k s'
      | O =>
          if startswith old s
          then new ++ replace_go old new (length old - 1) s'
          else c :: replace_go old new 0 s'
      end
  end.

Definition replace (old new s : pystr) : pystr := replace_go old new 0 s.

(** ["sep".join(parts)] *)
Fixpoint join (sep : pystr) (parts : list pystr) : pystr :=
  match parts with
  | [] => []
  | [p] => p
  | p :: rest => p ++ sep ++ join sep rest
  end.

(** [s.rsplit(sep, 1)[-1]] for a one-character [sep]: what follows the
    last [sep], the whole string when there is none. *)
Fixpoint rsplit1_last (sep : N) (s : pystr) : pystr :=
  match s with
  | [] => []
  | c :: s' =>
      if contains sep s then rsplit1_last sep s' else s
  end.

Definition is_ascii (s : pystr) : bool := forallb (fun c => c <? 128) s.

Definition ascii_lower (c : N) : N :=
  if (65 <=? c) && (c <=? 90) then c + 32 else c.

Definition ascii_upper (c : N) : N :=
  if (97 <=? c) && (c <=? 122) then c - 32 else c.

(** ** Python exceptions *)

Inductive exn : Type :=
| ValueError
| OverflowError
| UnicodeEncodeError        (* a subclass of ValueError *)
| ZoneInfoNotFoundError     (* a subclass of KeyError *)
| NotFound.                 (* google.api_core.exceptions.NotFound *)

Inductive result (A : Type) : Type :=
| Ok (a : A)
| Raise (e : exn).
Arguments Ok {A} a.
Arguments Raise {A} e.

#[global] Instance result_ret : MRet result := fun A a => Ok a.

#[global] Instance result_bind : MBind result := fun A B f r =>
  match r with
  | Ok a => f a
  | Raise e => Raise e
  end.

(** [isinstance(e, ValueError)] *)
Definition is_ValueError (e : exn) : bool :=
  match e with
  | ValueError | UnicodeEncodeError => true
  | _ => false
  end.

(** [try: body  except Exception: handler] *)
Definition try_except {A} (body : result A) (handler : A) : result A :=
  match body with
  | Ok a => Ok a
  | Raise _ => Ok handler
  end.

(** ** Decimal text *)

(** [str(n)] for a non-negative integer. *)
Definition str_N (n : N) : pystr :=
  lit (DecimalString.NilZero.string_of_uint (N.to_uint n)).

(** [str(z)] *)
Definition str_Z (z : Z) : pystr :=
  if (z <? 0)%Z then 45 :: str_N (Z.to_N (- z)) else str_N (Z.to_N z).

(** ["%0wd" % z] for [0 <= z]: zero-filled on the left up to width [w]. *)
Definition zfill (w : nat) (z : Z) : pystr :=
  let d := str_Z z in
  repeat 48 (w - length d) ++ d.

(** ** The Unicode character database

    Python's [str] methods, [int] and [re] consult the Unicode character
    database.  Its restriction to ASCII is written out; the rest of the
    tables is a parameter of the development. *)

(** The tables of the Unicode character database beyond ASCII. *)
Class Unicode : Type := {
  (** [unicodedata.decimal] on the code points above 127: the value of a
      character of category Nd, [None] for any other character. *)
  unicode_decimal : N -> option N;
  (** [str.lower] and [str.upper] on strings that are not pure ASCII. *)
  unicode_lower : pystr -> pystr;
  unicode_upper : pystr -> pystr
}.

Section Program.

Context {unicode : Unicode}.

Definition decimal (c : N) : option N :=
  if (48 <=? c) && (c <=? 57) then Some (c - 48)
  else if c <? 128 then None
  else unicode_decimal c.

(** the class [\d] of [re], and [str.isdecimal] on one character *)
Definition isdecimal (c : N) : bool :=
  match decimal c with Some _ => true | None => false end.

Definition lower (s : pystr) : pystr :=
  if is_ascii s then map ascii_lower s else unicode_lower s.

Definition upper (s : pystr) : pystr :=
  if is_ascii s then map ascii_upper s else unicode_upper s.

(** *** [int(s)] in base 10 *)

(** [sys.get_int_max_str_digits()], the default of CPython 3.11. *)
Definition INT_MAX_STR_DIGITS : nat := 4300.

(** The digits of an integer literal: decimal characters, single
    underscores allowed between two of them.  [sep] says that the
    previous character was not a digit.  Returns the value and the
    number of digits read. *)
Fixpoint int_digits (acc : Z) (n : nat) (sep : bool) (s : pystr)
  : option (Z * nat) :=
  match s with
  | [] => if sep then None else Some (acc, n)
  | c :: s' =>
      if c =? 95 then
        if sep then None else int_digits acc n true s'
      else
        match decimal c with
        | Some d => int_digits (10 * acc + Z.of_N d)%Z (S n) false s'
        | None => None
        end
  end.

Definition int_unsigned (s : pystr) : result Z :=
  match int_digits 0%Z 0%nat true s with
  | Some (v, n) =>
      if (INT_MAX_STR_DIGITS <? n)%nat then Raise ValueError else Ok v
  | None => Raise ValueError
  end.

(** The whitespace that [int] skips around the number.  Below U+007F it
    is the [isspace] of C, which does not have the separators U+001C to
    U+001F of [str.isspace]; from U+007F on it is [str.isspace]. *)
Definition int_isspace (c : N) : bool :=
  if c <? 127 then ((9 <=? c) && (c <=? 13)) || (c =? 32) else isspace c.

Fixpoint int_lstrip (s : pystr) : pystr :=
  match s with
  | c :: s' => if int_isspace c then int_lstrip s' else s
  | [] => []
  end.

Definition int_strip (s : pystr) : pystr :=
  rev (int_lstrip (rev (int_lstrip s))).

Definition py_int (s : pystr) : result Z :=
  match int_strip s with
  | 45 :: ds => v ← int_unsigned ds; Ok (- v)%Z
  | 43 :: ds => int_unsigned ds
  | ds => int_unsigned ds
  end.


(** ** [datetime]: calendar dates and fixed-offset zones *)

Local Open Scope Z_scope.

(** A [datetime.datetime] without its [tzinfo].  No format of this program
    has a fraction of a second, so [microsecond] is always 0 and is left
    out. *)
Record datetime : Type := mk_datetime {
  year : Z; month : Z; day : Z; hour : Z; minute : Z; second : Z
}.

Definition MINYEAR : Z := 1.
Definition MAXYEAR : Z := 9999.
Definition MAXORDINAL : Z := 3652059.   (* date(9999, 12, 31).toordinal() *)

Definition is_leap (y : Z) : bool :=
  (y mod 4 =? 0) && (negb (y mod 100 =? 0) || (y mod 400 =? 0)).

Definition days_before_year (y : Z) : Z :=
  let p := y - 1 in p * 365 + p / 4 - p / 100 + p / 400.

Definition DAYS_IN_MONTH (m : Z) : Z :=
  match m with
  | 1 => 31 | 2 => 28 | 3 => 31 | 4 => 30 | 5 => 31 | 6 => 30
  | 7 => 31 | 8 => 31 | 9 => 30 | 10 => 31 | 11 => 30 | 12 => 31
  | _ => -1
  end.

Definition DAYS_BEFORE_MONTH (m : Z) : Z :=
  match m with
  | 1 => 0 | 2 => 31 | 3 => 59 | 4 => 90 | 5 => 120 | 6 => 151
  | 7 => 181 | 8 => 212 | 9 => 243 | 10 => 273 | 11 => 304 | 12 => 334
  | _ => -1
  end.

Definition days_in_month (y m : Z) : Z :=
  if (m =? 2) && is_leap y then 29 else DAYS_IN_MONTH m.

Definition days_before_month (y m : Z) : Z :=
  DAYS_BEFORE_MONTH m + (if (2 <? m) && is_leap y then 1 else 0).

(** [date(y, m, d).toordinal()]: 1 is 0001-01-01. *)
Definition ymd2ord (y m d : Z) : Z :=
  days_before_year y + days_before_month y m + d.

Definition DI400Y : Z := 146097.
Definition DI100Y : Z := 36524.
Definition DI4Y : Z := 1461.

(** [date.fromordinal(n)] as year, month, day. *)
Definition ord2ymd (n : Z) : Z * Z * Z :=
  let n := n - 1 in
  let n400 := n / DI400Y in let n := n mod DI400Y in
  let y := n400 * 400 + 1 in
  let n100 := n / DI100Y in let n := n mod DI100Y in
  let n4 := n / DI4Y in let n := n mod DI4Y in
  let n1 := n / 365 in let n := n mod 365 in
  let y := y + n100 * 100 + n4 * 4 + n1 in
  if (n1 =? 4) || (n100 =? 4) then (y - 1, 12, 31)
  else
    let leapyear := (n1 =? 3) && (negb (n4 =? 24) || (n100 =? 3)) in
    let m := Z.shiftr (n + 50) 5 in
    let preceding :=
      DAYS_BEFORE_MONTH m + (if (2 <? m) && leapyear then 1 else 0) in
    if n <? preceding then
      let m := m - 1 in
      let preceding :=
        preceding
        - (DAYS_IN_MONTH m + (if (m =? 2) && leapyear then 1 else 0)) in
      (y, m, n - preceding + 1)
    else (y, m, n - preceding + 1).

(** [datetime(y, m, d, H, M, S)]: the constructor checks every field. *)
Definition datetime_new (y m d H M S : Z) : result datetime :=
  if (MINYEAR <=? y) && (y <=? MAXYEAR)
     && (1 <=? m) && (m <=? 12)
     && (1 <=? d) && (d <=? days_in_month y m)
     && (0 <=? H) && (H <=? 23)
     && (0 <=? M) && (M <=? 59)
     && (0 <=? S) && (S <=? 59)
  then Ok (mk_datetime y m d H M S)
  else Raise ValueError.

(** [dt + timedelta(seconds=delta)] *)
Definition add_seconds (dt : datetime) (delta : Z) : result datetime :=
  let total :=
    ymd2ord (year dt) (month dt) (day dt) * 86400
    + hour dt * 3600 + minute dt * 60 + second dt + delta in
  let days := total / 86400 in
  let secs := total mod 86400 in
  if (0 <? days) && (days <=? MAXORDINAL) then
    let '(y, m, d) := ord2ymd days in
    Ok (mk_datetime y m d (secs / 3600) (secs mod 3600 / 60) (secs mod 60))
  else Raise OverflowError.

(** A [tzinfo]: [timezone(timedelta(hours=h))], the only fixed offsets this
    program builds, or a [ZoneInfo] with the UTC offset (in seconds) that
    the zone database gives for each local wall time. *)
Inductive tzinfo : Type :=
| timezone (hours : Z)
| ZoneInfo (key : pystr) (offset : datetime -> Z).

(** [timezone.utc]; [timezone(timedelta(0))] is the same object. *)
Definition UTC : tzinfo := timezone 0.

(** [timezone(timedelta(hours=h))]: [timedelta] overflows beyond
    999999999 days, and [timezone] wants an offset strictly between -24
    and 24 hours. *)
Definition timezone_of_hours (h : Z) : result tzinfo :=
  let days := h * 3600 / 86400 in
  if (days <? -999999999) || (999999999 <? days) then Raise OverflowError
  else if (-24 <? h) && (h <? 24) then Ok (timezone h)
  else Raise ValueError.

(** [tz.utcoffset(dt)] in seconds. *)
Definition utcoffset (tz : tzinfo) (dt : datetime) : Z :=
  match tz with
  | timezone h => h * 3600
  | ZoneInfo _ off => off dt
  end.

(** [dt.replace(tzinfo=tz).astimezone(UTC)]: the same object when [tz] is
    [timezone.utc], otherwise [dt - tz.utcoffset(dt)], which is checked
    against the range of [datetime]. *)
Definition astimezone_UTC (tz : tzinfo) (dt : datetime) : result datetime :=
  match tz with
  | timezone 0 => Ok dt
  | _ => add_seconds dt (- utcoffset tz dt)
  end.

(** [str(tz)] *)
Definition str_tz (tz : tzinfo) : pystr :=
  match tz with
  | timezone 0 => lit "UTC"
  | timezone h =>
      lit "UTC" ++ (if h <? 0 then lit "-" else lit "+")
      ++ zfill 2 (Z.abs h) ++ lit ":00"
  | ZoneInfo key _ => key
  end.

(** [dt.isoformat()] of an aware datetime in UTC. *)
Definition isoformat_UTC (dt : datetime) : pystr :=
  zfill 4 (year dt) ++ lit "-" ++ zfill 2 (month dt) ++ lit "-"
  ++ zfill 2 (day dt) ++ lit "T" ++ zfill 2 (hour dt) ++ lit ":"
  ++ zfill 2 (minute dt) ++ lit ":" ++ zfill 2 (second dt) ++ lit "+00:00".

(** [dt.strftime("%Y-%m-%d %H:%M")].  The C library behind CPython on
    Linux writes [%Y] without padding. *)
Definition strftime_minute (dt : datetime) : pystr :=
  str_Z (year dt) ++ lit "-" ++ zfill 2 (month dt) ++ lit "-"
  ++ zfill 2 (day dt) ++ lit " " ++ zfill 2 (hour dt) ++ lit ":"
  ++ zfill 2 (minute dt).

(** ** [re]: the patterns that [strptime] builds *)

Local Open Scope N_scope.

(** The fragment of regular expressions that the formats of this program
    compile to.  Matching is by backtracking, alternatives in order, as
    in [re]. *)
Inductive regex : Type :=
| Empty
| Chr (c : N)                       (* a literal, with re.IGNORECASE *)
| Range (lo hi : N)                 (* [lo-hi] *)
| Digit                             (* \d *)
| Spaces                            (* \s+ *)
| Cat (r1 r2 : regex)
| Alt (r1 r2 : regex)
| Group (name : N) (r : regex).     (* (?P<name>r) *)

(** [\s+] against [s]: greedy, giving characters back one at a time while
    the rest of the pattern [k] fails. *)
Fixpoint spaces_plus {X} (s : pystr) (k : pystr -> option X) : option X :=
  match s with
  | c :: s' =>
      if isspace c then
        match spaces_plus s' k with
        | Some x => Some x
        | None => k s'
        end
      else None
  | [] => None
  end.

(** [rmatch r s g k]: match [r] at the head of [s], then hand the groups
    and the unmatched rest to [k]; the first success in backtracking order
    is the answer.  The only letters in the patterns of this program are
    a, m and p, which no character outside ASCII matches under
    IGNORECASE. *)
Fixpoint rmatch {X} (r : regex) (s : pystr) (g : groups)
    (k : groups -> pystr -> option X) : option X :=
  match r with
  | Empty => k g s
  | Chr c =>
      match s with
      | x :: s' => if ascii_lower x =? ascii_lower c then k g s' else None
      | [] => None
      end
  | Range lo hi =>
      match s with
      | x :: s' => if (lo <=? x) && (x <=? hi) then k g s' else None
      | [] => None
      end
  | Digit =>
      match s with
      | x :: s' => if isdecimal x then k g s' else None
      | [] => None
      end
  | Spaces => spaces_plus s (k g)
  | Cat r1 r2 => rmatch r1 s g (fun g' s' => rmatch r2 s' g' k)
  | Alt r1 r2 =>
      match rmatch r1 s g k with
      | Some x => Some x
      | None => rmatch r2 s g k
      end
  | Group name r1 =>
      rmatch r1 s g
        (fun g' s' => k ((name, take (length s - length s') s) :: g') s')
  end.

(** [re.match(r, s)]: the groups and the text left after the match. *)
Definition re_match (r : regex) (s : pystr) : option (groups * pystr) :=
  rmatch r s [] (fun g rest => Some (g, rest)).

(** [found.groupdict().get(name)] *)
Fixpoint group (g : groups) (name : N) : option pystr :=
  match g with
  | [] => None
  | (n, t) :: g' => if n =? name then Some t else group g' name
  end.

(** ** [datetime.strptime] *)

Definition chr (s : string) : N :=
  match s with
  | String a _ => N_of_ascii a
  | EmptyString => 0
  end.

Definition digit_range (lo hi : string) : regex := Range (chr lo) (chr hi).

Definition letter (x : string) : regex := Chr (chr x).

(** The table of [_strptime.TimeRE] for the directives used by
    [DT_FORMATS], in the C locale. *)
Definition directive (d : N) : option regex :=
  let D := Digit in
  if d =? chr "Y" then Some (Cat D (Cat D (Cat D D)))
  else if d =? chr "y" then Some (Cat D D)
  else if (d =? chr "m") || (d =? chr "I") then
    (* 1[0-2]|0[1-9]|[1-9] *)
    Some (Alt (Cat (letter "1") (digit_range "0" "2"))
         (Alt (Cat (letter "0") (digit_range "1" "9"))
              (digit_range "1" "9")))
  else if d =? chr "d" then
    (* 3[0-1]|[1-2]\d|0[1-9]|[1-9]| [1-9] *)
    Some (Alt (Cat (letter "3") (digit_range "0" "1"))
         (Alt (Cat (digit_range "1" "2") D)
         (Alt (Cat (letter "0") (digit_range "1" "9"))
         (Alt (digit_range "1" "9")
              (Cat (letter " ") (digit_range "1" "9"))))))
  else if d =? chr "H" then
    (* 2[0-3]|[0-1]\d|\d *)
    Some (Alt (Cat (letter "2") (digit_range "0" "3"))
         (Alt (Cat (digit_range "0" "1") D) D))
  else if d =? chr "M" then
    (* [0-5]\d|\d *)
    Some (Alt (Cat (digit_range "0" "5") D) D)
  else if d =? chr "S" then
    (* 6[0-1]|[0-5]\d|\d *)
    Some (Alt (Cat (letter "6") (digit_range "0" "1"))
         (Alt (Cat (digit_range "0" "5") D) D))
  else if d =? chr "p" then
    (* am|pm *)
    Some (Alt (Cat (letter "a") (letter "m")) (Cat (letter "p") (letter "m")))
  else None.

(** [TimeRE.pattern(fmt)]: a run of whitespace becomes [\s+], [%x] becomes
    the named group of directive [x], anything else stands for itself.
    [None] for an unknown directive or a stray [%].  [ws] says that the
    previous character was whitespace. *)
Fixpoint pattern_go (ws : bool) (fmt : pystr) : option regex :=
  match fmt with
  | [] => Some Empty
  | c :: fmt' =>
      if isspace c then
        if ws then pattern_go true fmt'
        else r ← pattern_go true fmt'; Some (Cat Spaces r)
      else if c =? chr "%" then
        match fmt' with
        | d :: fmt'' =>
            rd ← directive d;
            r ← pattern_go false fmt'';
            Some (Cat (Group d rd) r)
        | [] => None
        end
      else r ← pattern_go false fmt'; Some (Cat (Chr c) r)
  end.

Definition pattern (fmt : pystr) : option regex := pattern_go false fmt.

(** [int(found_dict[name])], [dflt] when the format has no such group. *)
Definition group_int (g : groups) (name : string) (dflt : Z) : result Z :=
  match group g (chr name) with
  | Some t => py_int t
  | None => Ok dflt
  end.

(** The year of [%Y], or of [%y] with the POSIX pivot: 69-99 are 19xx,
    00-68 are 20xx. *)
Definition strptime_year (g : groups) : result Z :=
  match group g (chr "Y") with
  | Some t => py_int t
  | None =>
      match group g (chr "y") with
      | Some t => y ← py_int t; Ok (if y <=? 68 then y + 2000 else y + 1900)%Z
      | None => Ok 1900%Z
      end
  end.

(** The hour of [%H], or of [%I] with the optional [%p]: 12 AM is hour 0,
    12 PM is hour 12. *)
Definition strptime_hour (g : groups) : result Z :=
  match group g (chr "I") with
  | Some t =>
      h ← py_int t;
      let ampm := lower (default [] (group g (chr "p"))) in
      if bool_decide (ampm = []) || bool_decide (ampm = lit "am") then
        Ok (if h =? 12 then 0 else h)%Z
      else if bool_decide (ampm = lit "pm") then
        Ok (if h =? 12 then h else h + 12)%Z
      else Ok h
  | None => group_int g "H" 0
  end.

(** [datetime.strptime(txt, fmt)]: ValueError when [txt] does not match
    the pattern of [fmt], when text is left after the match, or when the
    fields do not make a date. *)
Definition strptime (txt fmt : pystr) : result datetime :=
  match pattern fmt with
  | None => Raise ValueError
  | Some r =>
      match re_match r txt with
      | None => Raise ValueError
      | Some (g, _ :: _) => Raise ValueError
      | Some (g, []) =>
          y ← strptime_year g;
          m ← group_int g "m" 1;
          d ← group_int g "d" 1;
          H ← strptime_hour g;
          M ← group_int g "M" 0;
          S ← group_int g "S" 0;
          datetime_new y m d H M S
      end
  end.

(** ** Configuration ([main.py], lines 13-22) *)

(** The environment of the process, read once at import. *)
Record Config : Type := {
  BUCKET_PREFIX : pystr;     (* GCS_INPUT_PREFIX *)
  SOURCE_TZ : pystr;         (* SOURCE_TZ *)
  TIME_TOL_SEC : Z;          (* TIME_TOL_SEC *)
  STAGING_TABLE : pystr;     (* STAGING_BQ_TABLE *)
  CLEAN_TABLE : pystr;       (* CLEAN_BQ_TABLE *)
  EXISTING_TABLE : pystr;    (* EXISTING_BQ_TABLE *)
  TMP_PREFIX : pystr         (* GCS_OUTPUT_PREFIX *)
}.

(** The values used when the environment sets none of the variables. *)
Definition default_config : Config := {|
  BUCKET_PREFIX := lit "call-exports/";
  SOURCE_TZ := lit "UTC-7";
  TIME_TOL_SEC := 60;
  STAGING_TABLE := lit "dev-at-cf.at_dials_stage.at_dials_stage";
  CLEAN_TABLE := lit "dev-at-cf.at_dials.at_dials_cleaned";
  EXISTING_TABLE := lit "dev-at-cf.at_dials.at_dials_vici_cf_bq";
  TMP_PREFIX := lit "tmp/normalized/"
|}.

Variable cfg : Config.

Definition LEAD_KEYS : list pystr :=
  [lit "lead_id"; lit "vendor_lead_code"; lit "LeadID"].

Definition DT_FORMATS : list pystr :=
  [ lit "%Y-%m-%d %H:%M:%S";
    lit "%Y-%m-%d %H:%M";
    lit "%m/%d/%Y %H:%M:%S";
    lit "%m/%d/%Y %H:%M";
    lit "%m/%d/%y %H:%M:%S";
    lit "%m/%d/%y %H:%M";
    lit "%m/%d/%y %I:%M %p";
    lit "%m/%d/%Y %I:%M %p" ].

(** ** TZ helpers ([main.py], lines 46-72) *)

(** The IANA zone database behind [zoneinfo]: the UTC offset in seconds
    of each wall time of a zone, [None] for a key it does not have. *)
Class ZoneDatabase : Type := {
  tzdata : pystr -> option (datetime -> Z)
}.

Context {zones : ZoneDatabase}.

(** [ZoneInfo(key)] *)
Definition ZoneInfo_new (key : pystr) : result tzinfo :=
  match tzdata key with
  | Some off => Ok (ZoneInfo key off)
  | None => Raise ZoneInfoNotFoundError
  end.

(** The guard of line 53. *)
Definition is_utc_offset (s : pystr) : bool :=
  startswith (lit "UTC") (upper s)
  && (contains (chr "+") s || contains (chr "-") s).

Definition resolve_tz (tz_str : option pystr) : result tzinfo :=
  let s := strip (default [] tz_str) in
  if is_utc_offset s then
    try_except
      (hours ← py_int (replace (lit "UTC") [] s);
       timezone_of_hours hours)
      UTC
  else
    try_except (ZoneInfo_new s) UTC.

Definition SRC_TZ_OBJ : result tzinfo := resolve_tz (Some (SOURCE_TZ cfg)).

(** [str(x)] of a value that is a string or [None]. *)
Definition str_of (x : option pystr) : pystr := default (lit "None") x.

Definition tz_from_row_offset (offset_str : option pystr)
  : result (option tzinfo) :=
  try_except
    (hours ← py_int (strip (str_of offset_str));
     tz ← timezone_of_hours hours;
     Ok (Some tz))
    None.

(** ** Header and field helpers ([main.py], lines 74-112) *)

(** [dict.get(k)] on a dict whose values may be [None]. *)
Definition dict_get (d : gmap pystr (option pystr)) (k : pystr)
  : option pystr :=
  default None (d !! k).

(** The inner function [clean] of [normalize_headers]. *)
Definition clean (h : option pystr) : pystr :=
  match h with
  | None => []
  | Some h => lower (strip (replace [NBSP] (lit " ") (replace [BOM] [] h)))
  end.

(** The dict comprehension: entries are stored in order, a later header
    with the same clean name replaces an earlier one. *)
Definition normalize_headers (fieldnames : option (list (option pystr)))
  : gmap pystr (option pystr) :=
  foldl (fun m h => <[clean h := h]> m) ∅ (default [] fieldnames).

Fixpoint get_val (row header_map : gmap pystr (option pystr))
    (candidates : list pystr) : option pystr :=
  match candidates with
  | [] => None
  | cand :: rest =>
      let key :=
        lower (strip (replace [NBSP] (lit " ") (replace [BOM] [] cand))) in
      match dict_get header_map key with
      | Some orig =>
          match dict_get row orig with
          | Some val => Some val
          | None => get_val row header_map rest
          end
      | None => get_val row header_map rest
      end
  end.

(** [t or None] for a string [t]. *)
Definition or_None (t : pystr) : option pystr :=
  match t with
  | [] => None
  | _ => Some t
  end.

Definition safe_str (x : option pystr) : option pystr :=
  match x with
  | None => None
  | Some s => or_None (strip s)
  end.

(** [re.sub(r"\D+", "", val)] keeps the decimal characters. *)
Definition normalize_phone (val : option pystr) : option pystr :=
  match val with
  | None => None
  | Some v => or_None (List.filter isdecimal v)
  end.

Fixpoint pick_lead_id_go (row header_map : gmap pystr (option pystr))
    (keys : list pystr) : option pystr :=
  match keys with
  | [] =>
      safe_str
        (get_val row header_map [lit "vendor_lead_code"; lit "lead_id"])
  | k :: keys' =>
      match get_val row header_map [k] with
      | Some (c :: v) => Some (strip (c :: v))
      | _ => pick_lead_id_go row header_map keys'
      end
  end.

Definition pick_lead_id (row header_map : gmap pystr (option pystr))
  : option pystr :=
  pick_lead_id_go row header_map LEAD_KEYS.

(** ** Date parsing ([main.py], lines 114-135) *)

(** The line written to stdout when a format fails. *)
Definition parse_failed_msg (txt fmt : pystr) : pystr :=
  lit "Date parse failed for '" ++ txt ++ lit "' with format '" ++ fmt
  ++ lit "'".

(** The body of the [try] of lines 128-131. *)
Definition parse_with (txt fmt : pystr) (tzinfo_override : option tzinfo)
  : result (pystr * datetime) :=
  dt_naive ← strptime txt fmt;
  tzinfo ← match tzinfo_override with
            | Some tz => Ok tz
            | None => SRC_TZ_OBJ
            end;
  dt_utc ← astimezone_UTC tzinfo dt_naive;
  Ok (txt, dt_utc).

(** The loop of lines 126-135.  The result comes with the lines printed:
    one for each format that failed with a ValueError.  Any other
    exception leaves the function. *)
Fixpoint parse_formats (txt : pystr) (tzinfo_override : option tzinfo)
    (fmts : list pystr) : list pystr * result (option (pystr * datetime)) :=
  match fmts with
  | [] => ([], Ok None)
  | fmt :: rest =>
      match parse_with txt fmt tzinfo_override with
      | Ok r => ([], Ok (Some r))
      | Raise e =>
          if is_ValueError e then
            let '(out, r) := parse_formats txt tzinfo_override rest in
            (parse_failed_msg txt fmt :: out, r)
          else ([], Raise e)
      end
  end.

Definition parse_date_local (s : option pystr)
    (tzinfo_override : option tzinfo)
  : list pystr * result (option (pystr * datetime)) :=
  match s with
  | None => ([], Ok None)
  | Some s =>
      match strip s with
      | [] => ([], Ok None)
      | txt => parse_formats txt tzinfo_override DT_FORMATS
      end
  end.

(** ** [str.encode()] and [hashlib.sha256] *)

Local Open Scope N_scope.

(** The UTF-8 bytes of one character; a surrogate (U+D800 to U+DFFF)
    cannot be encoded.  Code points of a [str] are below 0x110000. *)
Definition utf8_char (c : N) : result (list N) :=
  if c <? 128 then Ok [c]
  else if c <? 2048 then
    Ok [N.lor 192 (N.shiftr c 6); N.lor 128 (N.land c 63)]
  else if c <? 65536 then
    if (55296 <=? c) && (c <=? 57343) then Raise UnicodeEncodeError
    else
      Ok [N.lor 224 (N.shiftr c 12);
          N.lor 128 (N.land (N.shiftr c 6) 63);
          N.lor 128 (N.land c 63)]
  else
    Ok [N.lor 240 (N.shiftr c 18);
        N.lor 128 (N.land (N.shiftr c 12) 63);
        N.lor 128 (N.land (N.shiftr c 6) 63);
        N.lor 128 (N.land c 63)].

(** [s.encode()] *)
Fixpoint str_encode (s : pystr) : result (list N) :=
  match s with
  | [] => Ok []
  | c :: s' => b ← utf8_char c; bs ← str_encode s'; Ok (b ++ bs)
  end.

(** 32-bit words, as [N] below [2^32]. *)
Definition w32 (x : N) : N := N.land x 4294967295.

Definition add32 (x y : N) : N := w32 (x + y).

Definition rotr (n x : N) : N :=
  N.lor (N.shiftr x n) (w32 (N.shiftl x (32 - n))).

Definition not32 (x : N) : N := N.lxor x 4294967295.

Definition Ch (x y z : N) : N :=
  N.lxor (N.land x y) (N.land (not32 x) z).

Definition Maj (x y z : N) : N :=
  N.lxor (N.lxor (N.land x y) (N.land x z)) (N.land y z).

Definition Sigma0 (x : N) : N :=
  N.lxor (N.lxor (rotr 2 x) (rotr 13 x)) (rotr 22 x).

Definition Sigma1 (x : N) : N :=
  N.lxor (N.lxor (rotr 6 x) (rotr 11 x)) (rotr 25 x).

Definition sigma0 (x : N) : N :=
  N.lxor (N.lxor (rotr 7 x) (rotr 18 x)) (N.shiftr x 3).

Definition sigma1 (x : N) : N :=
  N.lxor (N.lxor (rotr 17 x) (rotr 19 x)) (N.shiftr x 10).

(** The round constants of FIPS 180-4. *)
Definition sha256_K : list N :=
  [
    1116352408; 1899447441; 3049323471; 3921009573; 961987163; 1508970993;
    2453635748; 2870763221; 3624381080; 310598401; 607225278; 1426881987;
    1925078388; 2162078206; 2614888103; 3248222580; 3835390401; 4022224774;
    264347078; 604807628; 770255983; 1249150122; 1555081692; 1996064986;
    2554220882; 2821834349; 2952996808; 3210313671; 3336571891; 3584528711;
    113926993; 338241895; 666307205; 773529912; 1294757372; 1396182291;
    1695183700; 1986661051; 2177026350; 2456956037; 2730485921; 2820302411;
    3259730800; 3345764771; 3516065817; 3600352804; 4094571909; 275423344;
    430227734; 506948616; 659060556; 883997877; 958139571; 1322822218;
    1537002063; 1747873779; 1955562222; 2024104815; 2227730452; 2361852424;
    2428436474; 2756734187; 3204031479; 3329325298 ].

(** The eight working variables, also the chaining value. *)
Record sha256_state : Type := mk_state {
  sa : N; sb : N; sc : N; sd : N; se : N; sf : N; sg : N; sh : N
}.

Definition sha256_init : sha256_state :=
  mk_state 1779033703 3144134277 1013904242 2773480762
           1359893119 2600822924 528734635 1541459225.

(** The message with its padding: a 1 bit, zeros up to 56 modulo 64
    bytes, and the length in bits on 8 bytes. *)
Definition sha256_pad (msg : list N) : list N :=
  let len := N.of_nat (length msg) in
  let zeros := (119 - len mod 64) mod 64 in
  let bits := 8 * len in
  msg ++ [128] ++ repeat 0 (N.to_nat zeros)
  ++ map (fun i => N.land (N.shiftr bits (8 * i)) 255) [7; 6; 5; 4; 3; 2; 1; 0].

(** Big-endian words of a run of bytes. *)
Fixpoint be_words (bs : list N) : list N :=
  match bs with
  | b0 :: b1 :: b2 :: b3 :: rest =>
      (N.shiftl b0 24 + N.shiftl b1 16 + N.shiftl b2 8 + b3) :: be_words rest
  | _ => []
  end.

(** The message schedule beyond its first 16 words; [win] holds the 16
    words before the next one. *)
Fixpoint schedule_more (n : nat) (win : list N) : list N :=
  match n with
  | O => []
  | S n' =>
      let w :=
        add32 (add32 (sigma1 (nth 14 win 0)) (nth 9 win 0))
              (add32 (sigma0 (nth 1 win 0)) (nth 0 win 0)) in
      w :: schedule_more n' (tl win ++ [w])
  end.

Definition schedule (block : list N) : list N :=
  block ++ schedule_more 48 block.

Definition sha256_round (s : sha256_state) (kw : N * N) : sha256_state :=
  let '(k, w) := kw in
  let t1 :=
    add32 (add32 (add32 (sh s) (Sigma1 (se s))) (Ch (se s) (sf s) (sg s)))
          (add32 k w) in
  let t2 := add32 (Sigma0 (sa s)) (Maj (sa s) (sb s) (sc s)) in
  mk_state (add32 t1 t2) (sa s) (sb s) (sc s)
           (add32 (sd s) t1) (se s) (sf s) (sg s).

Definition sha256_block (s : sha256_state) (block : list N) : sha256_state :=
  let r := fold_left sha256_round (combine sha256_K (schedule block)) s in
  mk_state (add32 (sa s) (sa r)) (add32 (sb s) (sb r))
           (add32 (sc s) (sc r)) (add32 (sd s) (sd r))
           (add32 (se s) (se r)) (add32 (sf s) (sf r))
           (add32 (sg s) (sg r)) (add32 (sh s) (sh r)).

(** The 16-word blocks of a padded message. *)
Fixpoint blocks (n : nat) (ws : list N) : list (list N) :=
  match n with
  | O => []
  | S n' => take 16 ws :: blocks n' (drop 16 ws)
  end.

Definition sha256 (msg : list N) : sha256_state :=
  let ws := be_words (sha256_pad msg) in
  fold_left sha256_block (blocks (length ws / 16) ws) sha256_init.

Definition hex_digit (n : N) : N := if n <? 10 then 48 + n else 87 + n.

(** The eight lower-case hexadecimal digits of a word. *)
Definition hex32 (w : N) : pystr :=
  map (fun i => hex_digit (N.land (N.shiftr w (4 * i)) 15))
      [7; 6; 5; 4; 3; 2; 1; 0].

(** [hashlib.sha256(data).hexdigest()] *)
Definition sha256_hexdigest (data : list N) : pystr :=
  let s := sha256 data in
  hex32 (sa s) ++ hex32 (sb s) ++ hex32 (sc s) ++ hex32 (sd s)
  ++ hex32 (se s) ++ hex32 (sf s) ++ hex32 (sg s) ++ hex32 (sh s).

(** ** The record mapper ([main.py], lines 200-243) *)

Local Open Scope Z_scope.

(** The dict [mapped]: one accepted row in canonical form. *)
Record CanonicalRecord : Type := {
  Date : pystr;
  FirstName : option pystr;
  LastName : option pystr;
  Address : option pystr;
  CallNotes : option pystr;
  TalkTime : option pystr;
  SiteName : option pystr;
  Phone : option pystr;
  Email : option pystr;
  LeadID : option pystr;
  ListDescription : option pystr;
  ListID : option pystr;
  Disposition : option pystr;
  TermReason : option pystr;
  SubscriberID : option pystr;
  Source : option pystr;
  LeadType : option pystr;
  SourceLocalTime : pystr;
  SourceTimezone : pystr;
  SourceFile : pystr;
  DedupKey : pystr;
  RowHash : pystr;
  raw : pystr                       (* the key "_raw" *)
}.

(** The codecs of the standard library that the function calls.
    - [json.dumps(row, ensure_ascii=False)] and [json.dumps(mapped)];
    - [csv.DictReader(io.StringIO(content), skipinitialspace=True)]: the
      [fieldnames] ([None] for an empty file) and the rows, each a dict
      from header to a value that is [None] when the line is short.

    The objects of this development are texts that the reader reads to
    their end.  An object whose bytes are not UTF-8 makes
    [download_as_text] raise UnicodeDecodeError, and a text that the
    reader refuses makes it raise [csv.Error], at the header line or
    between two rows; neither exception is modelled, and no statement
    below says that [main] returns, or how it fails, on such an
    object. *)
Class Codecs : Type := {
  json_dumps_row : gmap pystr (option pystr) -> pystr;
  json_dumps : CanonicalRecord -> pystr;
  csv_DictReader :
    pystr -> option (list (option pystr)) * list (gmap pystr (option pystr))
}.

Context {codecs : Codecs}.

(** [x or ""] *)
Definition or_empty (x : option pystr) : pystr := default [] x.

(** Lines 229-237: the parts of the dedup key, joined with "|". *)
Definition dedup_key (phone lead_id list_id disposition : option pystr)
    (dt_utc : datetime) : pystr :=
  join (lit "|")
    [ or_empty phone; or_empty lead_id; or_empty list_id;
      or_empty disposition; strftime_minute dt_utc ].

(** [get_val(row, header_map, name)] with one candidate. *)
Definition field (row header_map : gmap pystr (option pystr))
    (name : string) : option pystr :=
  get_val row header_map [lit name].

(** Lines 202-240, for a row whose call date parsed to
    [(src_txt, dt_utc)]. *)
Definition map_row (source_file : pystr)
    (row header_map : gmap pystr (option pystr)) (row_tz : option tzinfo)
    (src_txt : pystr) (dt_utc : datetime) : result CanonicalRecord :=
  let phone :=
    normalize_phone
      (get_val row header_map
         [lit "phone_number_dialed"; lit "phone_number"]) in
  let lead_id := pick_lead_id row header_map in
  let LeadID_ :=
    match lead_id with
    | None => None
    | Some l => or_None (strip l)
    end in
  let ListID_ := safe_str (field row header_map "list_id") in
  let Disposition_ := safe_str (field row header_map "status") in
  let dedup := dedup_key phone LeadID_ ListID_ Disposition_ dt_utc in
  data ← str_encode dedup;
  Ok {|
    Date := isoformat_UTC dt_utc;
    FirstName := safe_str (field row header_map "first_name");
    LastName := safe_str (field row header_map "last_name");
    Address := safe_str (field row header_map "address1");
    CallNotes := safe_str (field row header_map "call_notes");
    TalkTime := safe_str (field row header_map "campaign_id");
    SiteName := None;
    Phone := phone;
    Email := safe_str (field row header_map "email");
    LeadID := LeadID_;
    ListDescription := safe_str (field row header_map "list_description");
    ListID := ListID_;
    Disposition := Disposition_;
    TermReason := None;
    SubscriberID := None;
    Source := None;
    LeadType := None;
    SourceLocalTime := src_txt;
    SourceTimezone :=
      match row_tz with
      | Some tz => str_tz tz
      | None => SOURCE_TZ cfg
      end;
    SourceFile := source_file;
    DedupKey := dedup;
    RowHash := sha256_hexdigest data;
    raw := json_dumps_row row
  |}.

(** ** The row loop ([main.py], lines 184-243) *)

(** The counters and the NDJSON buffer. *)
Record loop_state : Type := mk_loop {
  total : Z; good : Z; bad : Z; buf : pystr
}.

Definition loop_init : loop_state := mk_loop 0 0 0 [].

(** What one iteration does with its row. *)
Inductive outcome : Type :=
| Rejected                              (* the [continue] of line 198 *)
| Accepted (mapped : CanonicalRecord).  (* written to the buffer *)

(** Lines 191-240: the lines printed, and the outcome unless an exception
    leaves the loop. *)
Definition process_row (source_file : pystr)
    (header_map row : gmap pystr (option pystr))
  : list pystr * result outcome :=
  match tz_from_row_offset (get_val row header_map [lit "gmt_offset_now"]) with
  | Raise e => ([], Raise e)
  | Ok row_tz =>
      let '(out, dt_parsed) :=
        parse_date_local (get_val row header_map [lit "call_date"]) row_tz in
      match dt_parsed with
      | Raise e => (out, Raise e)
      | Ok None => (out, Ok Rejected)
      | Ok (Some (src_txt, dt_utc)) =>
          (out,
           mapped ← map_row source_file row header_map row_tz src_txt dt_utc;
           Ok (Accepted mapped))
      end
  end.

(** One iteration: the counters and the buffer after the row. *)
Definition loop_body (source_file : pystr)
    (header_map : gmap pystr (option pystr)) (st : loop_state)
    (row : gmap pystr (option pystr)) : list pystr * result loop_state :=
  let total' := total st + 1 in
  let '(out, r) := process_row source_file header_map row in
  (out,
   match r with
   | Raise e => Raise e
   | Ok Rejected => Ok (mk_loop total' (good st) (bad st + 1) (buf st))
   | Ok (Accepted mapped) =>
       Ok (mk_loop total' (good st + 1) (bad st)
             (buf st ++ json_dumps mapped ++ lit (String "010" "")))
   end).

(** [for row in reader: ...] *)
Fixpoint row_loop (source_file : pystr)
    (header_map : gmap pystr (option pystr)) (st : loop_state)
    (rows : list (gmap pystr (option pystr)))
  : list pystr * result loop_state :=
  match rows with
  | [] => ([], Ok st)
  | row :: rest =>
      match loop_body source_file header_map st row with
      | (out, Ok st') =>
          let '(out', r) := row_loop source_file header_map st' rest in
          (out ++ out', r)
      | (out, Raise e) => (out, Raise e)
      end
  end.

(** ** The collaborators: Cloud Storage, BigQuery, stdout *)

(** A call to a collaborator, with its arguments. *)
Inductive call : Type :=
| download_as_text (bucket name : pystr)
| upload_from_string (bucket key data content_type : pystr)
| load_table_from_uri (uri table : pystr)
| merge_query (time_tol : Z)
| audit_insert (source_file : pystr) (rows_total rows_errored : Z)
    (note : pystr)
| copy_blob (bucket name new_name : pystr)
| delete_blob (bucket name : pystr).

(** The world outside the function: the objects of the buckets (bucket
    and object name to text), the calls made so far, oldest first, and
    the lines printed.  A collaborator call succeeds unless it names an
    object that does not exist; failures of the services themselves are
    outside this model. *)
Record World : Type := mk_world {
  blobs : gmap (pystr * pystr) pystr;
  calls : list call;
  stdout : list pystr
}.

(** A computation on the world that may raise; the effects made before
    an exception stay. *)
Definition M (A : Type) : Type := World -> result A * World.

#[global] Instance M_ret : MRet M := fun A a w => (Ok a, w).

#[global] Instance M_bind : MBind M := fun A B f m w =>
  match m w with
  | (Ok a, w') => f a w'
  | (Raise e, w') => (Raise e, w')
  end.

Definition log_call (c : call) (w : World) : World :=
  mk_world (blobs w) (calls w ++ [c]) (stdout w).

(** [blob.download_as_text(encoding="utf-8-sig")] *)
Definition blob_download (bucket name : pystr) : M pystr := fun w =>
  let w' := log_call (download_as_text bucket name) w in
  match blobs w !! (bucket, name) with
  | Some content => (Ok content, w')
  | None => (Raise NotFound, w')
  end.

(** [blob.upload_from_string(data, content_type=...)] *)
Definition blob_upload (bucket key data content_type : pystr) : M unit :=
  fun w =>
    (Ok tt,
     mk_world (<[(bucket, key) := data]> (blobs w))
       (calls w ++ [upload_from_string bucket key data content_type])
       (stdout w)).

(** [bucket.copy_blob(blob, bucket, new_name)] *)
Definition bucket_copy_blob (bucket name new_name : pystr) : M unit :=
  fun w =>
    let w' := log_call (copy_blob bucket name new_name) w in
    match blobs w !! (bucket, name) with
    | Some content =>
        (Ok tt,
         mk_world (<[(bucket, new_name) := content]> (blobs w'))
           (calls w') (stdout w'))
    | None => (Raise NotFound, w')
    end.

(** [blob.delete()] *)
Definition blob_delete (bucket name : pystr) : M unit := fun w =>
  let w' := log_call (delete_blob bucket name) w in
  match blobs w !! (bucket, name) with
  | Some _ =>
      (Ok tt,
       mk_world (delete (bucket, name) (blobs w')) (calls w') (stdout w'))
  | None => (Raise NotFound, w')
  end.

(** A call to BigQuery. *)
Definition bq_call (c : call) : M unit := fun w => (Ok tt, log_call c w).

(** [print] of some lines. *)
Definition print_lines (lines : list pystr) : M unit := fun w =>
  (Ok tt, mk_world (blobs w) (calls w) (stdout w ++ lines)).

(** A computation that prints and may raise, run in the world. *)
Definition run_printing {A} (c : list pystr * result A) : M A := fun w =>
  (snd c, mk_world (blobs w) (calls w) (stdout w ++ fst c)).

(** ** BigQuery helpers ([main.py], lines 137-154) *)

Definition load_to_staging_from_ndjson (gcs_uri : pystr) : M unit :=
  bq_call (load_table_from_uri gcs_uri (STAGING_TABLE cfg)).

(** The text of [merge.sql] is not part of the function; the call carries
    its one parameter. *)
Definition run_merge (time_tol_sec : Z) : M unit :=
  bq_call (merge_query time_tol_sec).

(** ** Entry point ([main.py], lines 157-276) *)

(** The payload of the [object.finalize] trigger. *)
Record Event : Type := { ev_bucket : pystr; ev_name : pystr }.

Definition gs_uri (bucket_name key : pystr) : pystr :=
  lit "gs://" ++ bucket_name ++ lit "/" ++ key.

Definition processed_key (object_name : pystr) : pystr :=
  lit "processed/" ++ rsplit1_last (chr "/") object_name.

Definition audit_note (good bad : Z) : pystr :=
  lit "Processed good=" ++ str_Z good ++ lit ", bad=" ++ str_Z bad.

Definition main (event : Event) : M unit :=
  let bucket_name := ev_bucket event in
  let object_name := ev_name event in
  if negb (startswith (BUCKET_PREFIX cfg) object_name) then mret tt
  else
    let source_file := gs_uri bucket_name object_name in
    content ← blob_download bucket_name object_name;
    let reader := csv_DictReader content in
    let header_map := normalize_headers (fst reader) in
    let tmp_key := TMP_PREFIX cfg ++ object_name ++ lit ".ndjson" in
    st ← run_printing
           (row_loop source_file header_map loop_init (snd reader));
    _ ← (if 0 <? good st then
           _ ← blob_upload bucket_name tmp_key (buf st)
                 (lit "application/x-ndjson");
           _ ← load_to_staging_from_ndjson (gs_uri bucket_name tmp_key);
           run_merge (TIME_TOL_SEC cfg)
         else mret tt);
    _ ← bq_call (audit_insert source_file (total st) (bad st)
                   (audit_note (good st) (bad st)));
    _ ← bucket_copy_blob bucket_name object_name (processed_key object_name);
    blob_delete bucket_name object_name.

(** * Vocabulary of the properties *)

(** ** Views of what an iteration produced *)

(** Phone, Date and DedupKey of an accepted row. *)
Definition scenario_fields (r : result outcome)
  : option (option pystr * pystr * pystr) :=
  match r with
  | Ok (Accepted m) => Some (Phone m, Date m, DedupKey m)
  | _ => None
  end.

(** The four identity fields of a record that enter the fingerprint. *)
Definition identity_fields (m : CanonicalRecord)
  : option pystr * option pystr * option pystr * option pystr :=
  (Phone m, LeadID m, ListID m, Disposition m).

(** What the fingerprint is made from, and the fingerprint, of an
    accepted row. *)
Definition fingerprint_view (r : result outcome)
  : option (option pystr * option pystr * option pystr * option pystr
            * pystr * pystr * pystr) :=
  match r with
  | Ok (Accepted m) =>
      Some (Phone m, LeadID m, ListID m, Disposition m,
            Date m, DedupKey m, RowHash m)
  | _ => None
  end.

(** The instant that lines 192-193 resolve for a row: its [call_date],
    read in the zone of its [gmt_offset_now] when that is valid, in the
    configured zone otherwise. *)
Definition row_instant (header_map row : gmap pystr (option pystr))
  : result (option (pystr * datetime)) :=
  match tz_from_row_offset (field row header_map "gmt_offset_now") with
  | Ok row_tz =>
      snd (parse_date_local (field row header_map "call_date") row_tz)
  | Raise e => Raise e
  end.

(** A call date that no format of [DT_FORMATS] parses: [strptime] raises
    on its stripped text for every one of them. *)
Definition no_format_matches (call_date : option pystr) : Prop :=
  match call_date with
  | None => True
  | Some s =>
      Forall (fun fmt => exists e, strptime (strip s) fmt = Raise e)
             DT_FORMATS
  end.

(** The format fails in the way the loop of [parse_date_local] survives:
    with a ValueError. *)
Definition format_fails (txt : pystr) (tz : option tzinfo) (fmt : pystr)
  : Prop :=
  exists e, parse_with txt fmt tz = Raise e /\ is_ValueError e = true.



(** ** The run of [main] on one file *)

(** The row loop of [main] on the text of the triggering object: the
    lines printed, and the counters and buffer it ends with. *)
Definition file_loop (bucket_name object_name content : pystr)
  : list pystr * result loop_state :=
  let reader := csv_DictReader content in
  row_loop (gs_uri bucket_name object_name)
    (normalize_headers (fst reader)) loop_init (snd reader).

(** The object that holds the batch of a file. *)
Definition tmp_key (object_name : pystr) : pystr :=
  TMP_PREFIX cfg ++ object_name ++ lit ".ndjson".

(** The three calls that hand a batch over: write, load, merge. *)
Definition batch_calls (event : Event) (st : loop_state) : list call :=
  [ upload_from_string (ev_bucket event) (tmp_key (ev_name event)) (buf st)
      (lit "application/x-ndjson");
    load_table_from_uri (gs_uri (ev_bucket event) (tmp_key (ev_name event)))
      (STAGING_TABLE cfg);
    merge_query (TIME_TOL_SEC cfg) ].

(** The three calls that close a file: audit, copy, delete. *)
Definition closing_calls (event : Event) (st : loop_state) : list call :=
  [ audit_insert (gs_uri (ev_bucket event) (ev_name event))
      (total st) (bad st) (audit_note (good st) (bad st));
    copy_blob (ev_bucket event) (ev_name event)
      (processed_key (ev_name event));
    delete_blob (ev_bucket event) (ev_name event) ].

Definition is_audit (c : call) : bool :=
  match c with
  | audit_insert _ _ _ _ => true
  | _ => false
  end.

(** The world after [main] has processed a file whose loop ended in
    [st] after printing [out]. *)
Definition world_after (event : Event) (content : pystr)
    (out : list pystr) (st : loop_state) (w : World) : World :=
  let b := ev_bucket event in
  let name := ev_name event in
  let batch := 0 <? good st in
  mk_world
    (delete (b, name)
       (<[(b, processed_key name) := content]>
          (if batch then <[(b, tmp_key name) := buf st]> (blobs w)
           else blobs w)))
    (calls w ++ download_as_text b name
       :: (if batch then batch_calls event st else [])
       ++ closing_calls event st)
    (stdout w ++ out).

(** ** The scenario row of the specification *)

(** The headers of the scenario file; [phone_header] is the name of the
    column that holds the phone number. *)
Definition scenario_headers (phone_header : pystr)
  : option (list (option pystr)) :=
  Some [ Some phone_header; Some (lit "lead_id"); Some (lit "list_id");
         Some (lit "status"); Some (lit "call_date");
         Some (lit "gmt_offset_now") ].

Definition scenario_row (phone_header : pystr)
  : gmap pystr (option pystr) :=
  <[phone_header := Some (lit "555-123-4567")]>
  (<[lit "lead_id" := Some (lit "L1")]>
  (<[lit "list_id" := Some (lit "A")]>
  (<[lit "status" := Some (lit "SALE")]>
  (<[lit "call_date" := Some (lit "9/2/25 11:02")]>
  (<[lit "gmt_offset_now" := Some (lit "-4")]> ∅))))).

(** What [main] does with the scenario row of a file whose phone column
    is named [phone_header]. *)
Definition scenario (source_file phone_header : pystr) : result outcome :=
  snd (process_row source_file
         (normalize_headers (scenario_headers phone_header))
         (scenario_row phone_header)).

(** ** Two rows that differ in [list_id] and [status] only *)

Definition collision_headers : option (list (option pystr)) :=
  Some [ Some (lit "call_date"); Some (lit "gmt_offset_now");
         Some (lit "list_id"); Some (lit "status") ].

Definition collision_row (list_id status : string)
  : gmap pystr (option pystr) :=
  <[lit "call_date" := Some (lit "2025-09-02 15:02:00")]>
  (<[lit "gmt_offset_now" := Some (lit "0")]>
  (<[lit "list_id" := Some (lit list_id)]>
  (<[lit "status" := Some (lit status)]> ∅))).

Definition collision (source_file : pystr) (list_id status : string)
  : result outcome :=
  snd (process_row source_file (normalize_headers collision_headers)
         (collision_row list_id status)).

(** ** Shapes of text *)

(** A text without whitespace at either end. *)
Definition trimmed (t : pystr) : Prop :=
  match t with
  | [] => True
  | c :: _ => isspace c = false
  end
  /\ match rev t with
     | [] => True
     | c :: _ => isspace c = false
     end.

(** An optional text field as the mapper leaves it: absent, or a
    non-empty trimmed text. *)
Definition clean_field (x : option pystr) : Prop :=
  match x with
  | None => True
  | Some t => t <> [] /\ trimmed t
  end.

(** A text of whitespace only. *)
Definition blank (s : pystr) : bool := forallb isspace s.

(** A field without the separator of the dedup key. *)
Definition pipe_free (x : option pystr) : Prop :=
  contains (chr "|") (or_empty x) = false.

(** A surrogate code point: what UTF-8 cannot encode. *)
Definition surrogate (c : N) : bool :=
  ((55296 <=? c) && (c <=? 57343))%N.

(** A text without surrogates, as every text decoded from UTF-8 is. *)
Definition well_formed (s : pystr) : bool :=
  forallb (fun c => negb (surrogate c)) s.

(** A row all of whose values are well formed. *)
Definition well_formed_row (row : gmap pystr (option pystr)) : Prop :=
  forall k v, row !! k = Some (Some v) -> well_formed v = true.

(** ** The batch of a file *)

(** The records of the rows that are accepted, in the order of the rows. *)
Definition accepted_records (source_file : pystr)
    (header_map : gmap pystr (option pystr))
    (rows : list (gmap pystr (option pystr))) : list CanonicalRecord :=
  omap (fun row =>
          match snd (process_row source_file header_map row) with
          | Ok (Accepted m) => Some m
          | _ => None
          end) rows.



(** ** Optional fields *)

(** A column that gives a field nothing to hold: no value in the row, or
    whitespace only. *)
Definition absent_or_blank (v : option pystr) : Prop :=
  match v with
  | None => True
  | Some s => blank s = true
  end.

(** The optional text fields of a record, each with the value of the
    column it is read from (lines 207-219). *)
Definition optional_fields (row header_map : gmap pystr (option pystr))
    (m : CanonicalRecord) : list (option pystr * option pystr) :=
  [ (field row header_map "first_name", FirstName m);
    (field row header_map "last_name", LastName m);
    (field row header_map "address1", Address m);
    (field row header_map "call_notes", CallNotes m);
    (field row header_map "campaign_id", TalkTime m);
    (field row header_map "email", Email m);
    (field row header_map "list_description", ListDescription m);
    (field row header_map "list_id", ListID m);
    (field row header_map "status", Disposition m) ].
End Program.

(** * A platform for the closed examples

    The examples at the end of the file evaluate the program on ASCII
    text, on which every platform agrees; they are stated on the platform
    whose tables hold nothing beyond ASCII. *)

Definition ascii_unicode : Unicode := {|
  unicode_decimal := fun _ => None;
  unicode_lower := fun s => s;
  unicode_upper := fun s => s
|}.

(** A zone database without any zone. *)
Definition no_zones : ZoneDatabase := {| tzdata := fun _ => None |}.

(** A row whose call date no format parses. *)
Definition unparseable_row : gmap pystr (option pystr) :=
  <[lit "call_date" := Some (lit "n/a")]>
  (<[lit "phone_number" := Some (lit "555-000-0000")]> ∅).

(** Codecs for the examples: the text "rejected" reads as a file with the
    one row [unparseable_row], any other text as a file with the scenario
    row followed by [unparseable_row]; a record is written as its dedup
    key. *)
Definition example_codecs : Codecs := {|
  json_dumps_row := fun _ => lit "{}";
  json_dumps := DedupKey;
  csv_DictReader := fun content =>
    (scenario_headers (lit "phone_number"),
     if bool_decide (content = lit "rejected") then [unparseable_row]
     else [scenario_row (lit "phone_number"); unparseable_row])
|}.

Definition example_event : Event := {|
  ev_bucket := lit "call-exports";
  ev_name := lit "call-exports/day1.csv"
|}.

(** An upload outside the input prefix. *)
Definition foreign_event : Event := {|
  ev_bucket := lit "call-exports";
  ev_name := lit "other/day1.csv"
|}.

(** A world with the one object of [example_event], holding [content]. *)
Definition example_world (content : pystr) : World :=
  mk_world {[ (ev_bucket example_event, ev_name example_event) := content ]}
    [] [].

(** Two exports of one call: the same identity fields and call minute,
    other seconds, another agent name. *)
Definition export_headers : option (list (option pystr)) :=
  Some [ Some (lit "call_date"); Some (lit "gmt_offset_now");
         Some (lit "phone_number"); Some (lit "status");
         Some (lit "first_name") ].

Definition export_row (call_date first_name : string)
  : gmap pystr (option pystr) :=
  <[lit "call_date" := Some (lit call_date)]>
  (<[lit "gmt_offset_now" := Some (lit "-4")]>
  (<[lit "phone_number" := Some (lit "(555) 123-4567")]>
  (<[lit "status" := Some (lit "SALE")]>
  (<[lit "first_name" := Some (lit first_name)]> ∅)))).

(** A row whose call date, read in the default zone UTC-7, falls in year
    10000 of UTC. *)
Definition overflow_row : gmap pystr (option pystr) :=
  <[lit "call_date" := Some (lit "9999-12-31 23:59:59")]>
  (<[lit "phone_number" := Some (lit "555-999-9999")]> ∅).

(** A row that is accepted: its call date, read in the default zone
    UTC-7, is 18:02:10 UTC. *)
Definition accepted_row : gmap pystr (option pystr) :=
  <[lit "call_date" := Some (lit "2025-09-02 11:02:10")]>
  (<[lit "phone_number" := Some (lit "555-123-4567")]> ∅).

(** Three files of two columns: one whose only row is
    [unparseable_row], one whose only row is [overflow_row], and one
    with [accepted_row] before [overflow_row]. *)
Definition two_column_headers : option (list (option pystr)) :=
  Some [Some (lit "call_date"); Some (lit "phone_number")].

Definition rejected_only_csv : pystr :=
  lit "call_date,phone_number" ++ lit (String "010" "")
  ++ lit "n/a,555-000-0000" ++ lit (String "010" "").

Definition overflow_only_csv : pystr :=
  lit "call_date,phone_number" ++ lit (String "010" "")
  ++ lit "9999-12-31 23:59:59,555-999-9999" ++ lit (String "010" "").

Definition accepted_then_overflow_csv : pystr :=
  lit "call_date,phone_number" ++ lit (String "010" "")
  ++ lit "2025-09-02 11:02:10,555-123-4567" ++ lit (String "010" "")
  ++ lit "9999-12-31 23:59:59,555-999-9999" ++ lit (String "010" "").

(** Codecs that read these three files as [csv.DictReader] does, and any
    other text as an empty file; a record is written as its dedup key. *)
Definition two_column_codecs : Codecs := {|
  json_dumps_row := fun _ => lit "{}";
  json_dumps := DedupKey;
  csv_DictReader := fun content =>
    if bool_decide (content = rejected_only_csv)
    then (two_column_headers, [unparseable_row])
    else if bool_decide (content = overflow_only_csv)
    then (two_column_headers, [overflow_row])
    else if bool_decide (content = accepted_then_overflow_csv)
    then (two_column_headers, [accepted_row; overflow_row])
    else (None, [])
|}.

(** A deployment whose input prefix is the archive folder itself, and an
    upload there. *)
Definition processed_config : Config := {|
  BUCKET_PREFIX := lit "processed/";
  SOURCE_TZ := SOURCE_TZ default_config;
  TIME_TOL_SEC := TIME_TOL_SEC default_config;
  STAGING_TABLE := STAGING_TABLE default_config;
  CLEAN_TABLE := CLEAN_TABLE default_config;
  EXISTING_TABLE := EXISTING_TABLE default_config;
  TMP_PREFIX := TMP_PREFIX default_config
|}.

Definition processed_event : Event := {|
  ev_bucket := lit "call-exports";
  ev_name := lit "processed/day1.csv"
|}.

(** A world with the one object of [processed_event], holding [content]. *)
Definition processed_world (content : pystr) : World :=
  mk_world
    {[ (ev_bucket processed_event, ev_name processed_event) := content ]}
    [] [].

(** The header line of a file that has the call date twice, the second
    time with a byte-order mark, blanks and capitals. *)
Definition variant_header : pystr := BOM :: lit " CALL_DATE ".

Definition variant_headers : list (option pystr) :=
  [Some (lit "call_date"); Some variant_header; Some (lit "status")].

Definition variant_row : gmap pystr (option pystr) :=
  <[lit "call_date" := Some (lit "1/1/25 10:00")]>
  (<[variant_header := Some (lit "9/2/25 11:02")]>
  (<[lit "status" := Some (lit "SALE")]> ∅)).

(** * Properties *)

Section Properties.

Context {unicode : Unicode} {zones : ZoneDatabase} {codecs : Codecs}.

Variable cfg : Config.

Local Open Scope Z_scope.

(** ** Inversion of the monadic steps *)

Lemma bind_Ok {A B} (r : result A) (f : A -> result B) (b : B) :
  (r ≫= f) = Ok b -> exists a, r = Ok a /\ f a = Ok b.
Proof. destruct r as [a|e]; simpl; [eauto|discriminate]. Qed.

(** An accepted row went through the three steps of the loop body. *)
Lemma process_row_accepted (source_file : pystr)
    (header_map row : gmap pystr (option pystr)) (m : CanonicalRecord) :
  snd (process_row cfg source_file header_map row) = Ok (Accepted m) ->
  exists row_tz src_txt dt_utc,
    tz_from_row_offset (field row header_map "gmt_offset_now") = Ok row_tz
    /\ row_instant cfg header_map row = Ok (Some (src_txt, dt_utc))
    /\ map_row cfg source_file row header_map row_tz src_txt dt_utc = Ok m.
Proof.
  unfold process_row, row_instant, field.
  destruct (tz_from_row_offset _) as [row_tz|e]; [|discriminate].
  destruct (parse_date_local _ _ _) as [out [[[src_txt dt_utc]|]|e]];
    simpl; try discriminate.
  intros Hm. apply bind_Ok in Hm as (m' & Hm' & [= <-]).
  by exists row_tz, src_txt, dt_utc.
Qed.

(** What [map_row] puts in the fingerprint fields. *)
Lemma map_row_fingerprint (source_file : pystr)
    (row header_map : gmap pystr (option pystr)) (row_tz : option tzinfo)
    (src_txt : pystr) (dt_utc : datetime) (m : CanonicalRecord) :
  map_row cfg source_file row header_map row_tz src_txt dt_utc = Ok m ->
  Date m = isoformat_UTC dt_utc
  /\ DedupKey m
     = dedup_key (Phone m) (LeadID m) (ListID m) (Disposition m) dt_utc
  /\ exists data,
       str_encode (DedupKey m) = Ok data
       /\ RowHash m = sha256_hexdigest data.
Proof.
  unfold map_row. intros Hm.
  apply bind_Ok in Hm as (data & Hdata & [= <-]). simpl. eauto.
Qed.

(** ** What the library calls can raise *)

Lemma int_unsigned_raises (s : pystr) (e : exn) :
  int_unsigned s = Raise e -> e = ValueError.
Proof.
  unfold int_unsigned.
  destruct (int_digits _ _ _ _) as [[v n]|]; [|congruence].
  destruct (_ <? _)%nat; congruence.
Qed.

Lemma py_int_raises (s : pystr) (e : exn) :
  py_int s = Raise e -> e = ValueError.
Proof.
  unfold py_int. intros Hr.
  assert (Hneg : forall ds, (int_unsigned ds ≫= fun v => Ok (- v)%Z)
                            = Raise e -> e = ValueError).
  { intros ds. destruct (int_unsigned ds) eqn:E; simpl; [discriminate|].
    intros [= <-]. by apply int_unsigned_raises in E. }
  destruct (int_strip s) as [|c ds]; [by apply int_unsigned_raises in Hr|].
  destruct (decide (c = 45%N)) as [->|H45]; [by apply Hneg in Hr|].
  destruct (decide (c = 43%N)) as [->|H43];
    [by apply int_unsigned_raises in Hr|].
  assert (Hc : int_unsigned (c :: ds) = Raise e).
  { destruct c as [|p]; [done|].
    do 6 (destruct p as [p|p|]; try done). }
  by apply int_unsigned_raises in Hc.
Qed.

Lemma datetime_new_raises (y m d H' M' S' : Z) (e : exn) :
  datetime_new y m d H' M' S' = Raise e -> e = ValueError.
Proof. unfold datetime_new. destruct (_ && _); congruence. Qed.

Lemma bind_Raise {A B} (r : result A) (f : A -> result B) (e : exn) :
  (r ≫= f) = Raise e ->
  r = Raise e \/ exists a, r = Ok a /\ f a = Raise e.
Proof. destruct r as [a|e']; simpl; [eauto|]. intros [= <-]. by left. Qed.

Lemma group_int_raises (g : groups) (name : string) (dflt : Z) (e : exn) :
  group_int g name dflt = Raise e -> e = ValueError.
Proof.
  unfold group_int. destruct (group g _); [apply py_int_raises|discriminate].
Qed.

Lemma strptime_year_raises (g : groups) (e : exn) :
  strptime_year g = Raise e -> e = ValueError.
Proof.
  unfold strptime_year. destruct (group g (chr "Y")); [apply py_int_raises|].
  destruct (group g (chr "y")); [|discriminate].
  intros Hr. apply bind_Raise in Hr as [Hr|(y & _ & Hr)]; [|discriminate].
  by apply py_int_raises in Hr.
Qed.

Lemma strptime_hour_raises (g : groups) (e : exn) :
  strptime_hour g = Raise e -> e = ValueError.
Proof.
  unfold strptime_hour. destruct (group g (chr "I")); [|apply group_int_raises].
  intros Hr. apply bind_Raise in Hr as [Hr|(h & _ & Hr)].
  - by apply py_int_raises in Hr.
  - repeat (destruct (_ || _) || destruct (bool_decide _)); discriminate.
Qed.

(** [strptime] raises nothing but ValueError. *)
Lemma strptime_raises (txt fmt : pystr) (e : exn) :
  strptime txt fmt = Raise e -> e = ValueError.
Proof.
  unfold strptime. destruct (pattern fmt) as [r|]; [|congruence].
  destruct (re_match r txt) as [[g [|c rest]]|]; [|congruence..].
  intros Hr.
  apply bind_Raise in Hr as [Hr|(y & _ & Hr)];
    [by apply strptime_year_raises in Hr|].
  apply bind_Raise in Hr as [Hr|(m & _ & Hr)];
    [by apply group_int_raises in Hr|].
  apply bind_Raise in Hr as [Hr|(d & _ & Hr)];
    [by apply group_int_raises in Hr|].
  apply bind_Raise in Hr as [Hr|(H' & _ & Hr)];
    [by apply strptime_hour_raises in Hr|].
  apply bind_Raise in Hr as [Hr|(M' & _ & Hr)];
    [by apply group_int_raises in Hr|].
  apply bind_Raise in Hr as [Hr|(S' & _ & Hr)];
    [by apply group_int_raises in Hr|].
  by apply datetime_new_raises in Hr.
Qed.

(** The conversion to UTC raises nothing but OverflowError. *)
Lemma astimezone_UTC_raises (tz : tzinfo) (dt : datetime) (e : exn) :
  astimezone_UTC tz dt = Raise e -> e = OverflowError.
Proof.
  assert (Ha : forall delta, add_seconds dt delta = Raise e ->
                             e = OverflowError).
  { intros delta. unfold add_seconds. destruct (_ && _); [|congruence].
    by destruct (ord2ymd _) as [[y m] d]. }
  unfold astimezone_UTC. destruct tz as [[|p|p]|key off]; eauto. discriminate.
Qed.

(** ** Timezone resolution *)

Lemma try_except_Ok {A} (body : result A) (handler : A) :
  try_except body handler
  = Ok (match body with Ok a => a | Raise _ => handler end).
Proof. by destruct body. Qed.

Lemma timezone_of_hours_Ok (h : Z) (tz : tzinfo) :
  timezone_of_hours h = Ok tz <-> (-24 < h < 24)%Z /\ tz = timezone h.
Proof.
  unfold timezone_of_hours.
  destruct (_ || _) eqn:Ed.
  - split; [discriminate|]. intros [Hh _]. exfalso.
    apply orb_true_iff in Ed as [Ed|Ed].
    + apply Z.ltb_lt in Ed.
      assert (-1 <= h * 3600 / 86400)%Z; [|lia].
      apply Z.div_le_lower_bound; lia.
    + apply Z.ltb_lt in Ed.
      assert (h * 3600 / 86400 <= 0)%Z; [|lia].
      apply Z.lt_succ_r. apply Z.div_lt_upper_bound; lia.
  - destruct (_ && _) eqn:Eh.
    + apply andb_true_iff in Eh as [?%Z.ltb_lt ?%Z.ltb_lt].
      split; [intros [= <-]; split; [lia|done]|]. by intros [_ ->].
    + split; [discriminate|]. intros [Hh _].
      apply andb_false_iff in Eh as [?%Z.ltb_ge| ?%Z.ltb_ge]; lia.
Qed.

(** The zone of [resolve_tz], case by case. *)
Lemma resolve_tz_spec (tz_str : option pystr) :
  let s := strip (default [] tz_str) in
  resolve_tz tz_str
  = Ok (if is_utc_offset s then
          match py_int (replace (lit "UTC") [] s) ≫= timezone_of_hours with
          | Ok tz => tz
          | Raise _ => UTC
          end
        else
          match tzdata s with
          | Some off => ZoneInfo s off
          | None => UTC
          end).
Proof.
  simpl. unfold resolve_tz. destruct (is_utc_offset _).
  - apply try_except_Ok.
  - rewrite try_except_Ok. unfold ZoneInfo_new. by destruct (tzdata _).
Qed.

(** The override of [tz_from_row_offset], case by case. *)
Lemma tz_from_row_offset_spec (offset_str : option pystr) :
  tz_from_row_offset offset_str
  = Ok (match py_int (strip (str_of offset_str)) ≫= timezone_of_hours with
        | Ok tz => Some tz
        | Raise _ => None
        end).
Proof.
  unfold tz_from_row_offset. rewrite try_except_Ok. f_equal.
  destruct (py_int _) as [h|e]; simpl; [|done].
  by destruct (timezone_of_hours h).
Qed.

Lemma SRC_TZ_OBJ_total : exists tz, SRC_TZ_OBJ cfg = Ok tz.
Proof. unfold SRC_TZ_OBJ. rewrite resolve_tz_spec. eauto. Qed.

(** ** The format loop of [parse_date_local] *)

(** A format fails with a ValueError exactly when [strptime] raises: the
    zone plays no part in it. *)
Lemma format_fails_iff (txt : pystr) (tz : option tzinfo) (fmt : pystr) :
  format_fails cfg txt tz fmt <-> exists e, strptime txt fmt = Raise e.
Proof.
  unfold format_fails, parse_with. split.
  - intros (e & Hr & He).
    apply bind_Raise in Hr as [Hr|(d & _ & Hr)]; [eauto|]. exfalso.
    apply bind_Raise in Hr as [Hr|(tz' & _ & Hr)].
    + destruct tz; [discriminate|].
      destruct SRC_TZ_OBJ_total as [tz' Htz]. congruence.
    + apply bind_Raise in Hr as [Hr|(u & _ & Hr)]; [|discriminate].
      apply astimezone_UTC_raises in Hr. by subst e.
  - intros (e & Hr). pose proof (strptime_raises _ _ _ Hr) as ->.
    exists ValueError. by rewrite Hr.
Qed.

(** The loop answers [None] exactly when every format failed. *)
Lemma parse_formats_None (txt : pystr) (tz : option tzinfo)
    (fmts : list pystr) :
  snd (parse_formats cfg txt tz fmts) = Ok None
  <-> Forall (format_fails cfg txt tz) fmts.
Proof.
  induction fmts as [|fmt fmts IH]; simpl.
  - split; [constructor|done].
  - destruct (parse_with cfg txt fmt tz) as [r|e] eqn:Ew.
    + split; [discriminate|]. intros Hf. inversion Hf as [|? ? (e & He & _)].
      congruence.
    + destruct (is_ValueError e) eqn:Ee.
      * destruct (parse_formats cfg txt tz fmts) as [out r]. simpl in *.
        rewrite IH. split.
        -- intros Hf. constructor; [by exists e|done].
        -- intros Hf. by inversion Hf.
      * split; [discriminate|]. intros Hf.
        inversion Hf as [|? ? (e' & He' & Hv)]. congruence.
Qed.

(** The first format that parses wins: the formats before it each
    printed their failure, the formats after it are not tried. *)
Lemma parse_formats_first_match (txt : pystr) (tz : option tzinfo)
    (pre : list pystr) (fmt : pystr) (post : list pystr)
    (r : pystr * datetime) :
  Forall (format_fails cfg txt tz) pre ->
  parse_with cfg txt fmt tz = Ok r ->
  parse_formats cfg txt tz (pre ++ fmt :: post)
  = (map (parse_failed_msg txt) pre, Ok (Some r)).
Proof.
  intros Hpre Hr. induction Hpre as [|f pre (e & He & Hv) _ IH]; simpl.
  - by rewrite Hr.
  - by rewrite He, Hv, IH.
Qed.


(** No format parses the empty text. *)
Lemma strptime_empty :
  Forall (fun fmt => exists e, strptime [] fmt = Raise e) DT_FORMATS.
Proof.
  unfold DT_FORMATS.
  repeat (constructor; [exists ValueError; vm_compute; reflexivity|]).
  constructor.
Qed.

(** The resolver answers "unparseable" exactly for the call dates that
    no format parses; neither the zone of the row nor the configured one
    matters. *)
Lemma row_instant_None (header_map row : gmap pystr (option pystr)) :
  row_instant cfg header_map row = Ok None
  <-> no_format_matches (field row header_map "call_date").
Proof.
  unfold row_instant, no_format_matches.
  rewrite tz_from_row_offset_spec.
  destruct (field row header_map "call_date") as [s|]; [|done].
  unfold parse_date_local. destruct (strip s) as [|c txt] eqn:Es.
  - split; [intros _; apply strptime_empty|done].
  - rewrite parse_formats_None. apply Forall_proper; [|done].
    intros fmt. apply format_fails_iff.
Qed.

(** C3: where the code departs from the specification.  The text
    "9999-12-31 23:59:59" matches the first format, so the resolver
    should return a ParsedInstant; in the
    default zone UTC-7 its UTC instant is in year 10000, the conversion
    raises OverflowError, which the [except ValueError] of the loop does
    not catch, and [parse_date_local] raises instead of returning. *)
Theorem parse_date_local_overflows :
  strptime (lit "9999-12-31 23:59:59") (lit "%Y-%m-%d %H:%M:%S")
  = Ok (mk_datetime 9999 12 31 23 59 59)
  /\ snd (parse_date_local default_config
            (Some (lit "9999-12-31 23:59:59")) None)
     = Raise OverflowError.
Proof. split; vm_compute; reflexivity. Qed.

(** *** What [int] refuses

    [int] skips whitespace around the number, but not the separators
    U+001C to U+001F, although [str.strip] removes them. *)










(** ** The digest is 64 hexadecimal digits *)





(** ** The fingerprint *)



(** ** The run of [main] on one file *)

Lemma M_bind_run {A B} (m : M A) (f : A -> M B) (w : World) :
  (m ≫= f) w
  = match m w with
    | (Ok a, w') => f a w'
    | (Raise e, w') => (Raise e, w')
    end.
Proof. reflexivity. Qed.

(** One step of a run: the head of a bind is a primitive, which is
    evaluated. *)
Ltac run_step :=
  progress
    (rewrite ?M_bind_run;
     unfold blob_upload, load_to_staging_from_ndjson, run_merge, bq_call,
       bucket_copy_blob, blob_delete, log_call, mret, M_ret;
     cbv beta iota; cbn [fst snd blobs calls stdout]).

Lemma tmp_key_fresh (object_name : pystr) :
  tmp_key cfg object_name <> object_name.
Proof.
  unfold tmp_key. intros Heq. apply (f_equal length) in Heq.
  rewrite !length_app in Heq. simpl in Heq. lia.
Qed.

(** [main] on an object under the input prefix that exists and whose
    loop runs to its end: it returns, and the world is [world_after]. *)
Lemma main_run (event : Event) (w : World) (content : pystr)
    (out : list pystr) (st : loop_state) :
  startswith (BUCKET_PREFIX cfg) (ev_name event) = true ->
  blobs w !! (ev_bucket event, ev_name event) = Some content ->
  file_loop cfg (ev_bucket event) (ev_name event) content = (out, Ok st) ->
  main cfg event w = (Ok tt, world_after cfg event content out st w).
Proof.
  intros Hpre Hblob Hloop. unfold main. rewrite Hpre.
  change (negb true) with false. cbv iota.
  rewrite M_bind_run. unfold blob_download. rewrite Hblob.
  rewrite M_bind_run. unfold file_loop in Hloop. unfold run_printing.
  rewrite Hloop. cbn [fst snd blobs calls stdout log_call].
  unfold world_after, batch_calls, closing_calls, tmp_key.
  destruct (0 <? good st).
  - repeat run_step.
    rewrite lookup_insert_ne, Hblob.
    2:{ intros [= Heq]. by apply tmp_key_fresh in Heq. }
    repeat run_step.
    assert (Hl : is_Some
              (<[(ev_bucket event, processed_key (ev_name event)) := content]>
                 (<[(ev_bucket event,
                     TMP_PREFIX cfg ++ ev_name event ++ lit ".ndjson")
                    := buf st]> (blobs w))
               !! (ev_bucket event, ev_name event))).
    { rewrite lookup_insert. case_decide; [by eexists|].
      rewrite lookup_insert_ne, Hblob; [by eexists|].
      intros [= Heq]. by apply tmp_key_fresh in Heq. }
    destruct Hl as [c' ->]. f_equal. f_equal.
    rewrite <- !app_assoc. reflexivity.
  - repeat run_step. rewrite Hblob. repeat run_step.
    assert (Hl : is_Some
              (<[(ev_bucket event, processed_key (ev_name event)) := content]>
                 (blobs w) !! (ev_bucket event, ev_name event))).
    { rewrite lookup_insert. case_decide; [by eexists|].
      rewrite Hblob. by eexists. }
    destruct Hl as [c' ->]. f_equal. f_equal.
    rewrite <- !app_assoc. reflexivity.
Qed.

(** ** The counters *)

(** One iteration adds one to [total] and to exactly one of [good] and
    [bad]. *)
Lemma loop_body_counts (source_file : pystr)
    (header_map : gmap pystr (option pystr)) (st st' : loop_state)
    (row : gmap pystr (option pystr)) :
  snd (loop_body cfg source_file header_map st row) = Ok st' ->
  total st' = total st + 1
  /\ ((good st' = good st + 1 /\ bad st' = bad st)
      \/ (good st' = good st /\ bad st' = bad st + 1)).
Proof.
  unfold loop_body. destruct (process_row _ _ _ _) as [out [[|m]|e]]; simpl;
    [| |discriminate]; intros [= <-]; simpl; auto.
Qed.

(** The loop, when it runs to its end, has counted every row once. *)
Lemma row_loop_counts (source_file : pystr)
    (header_map : gmap pystr (option pystr))
    (rows : list (gmap pystr (option pystr))) (st st' : loop_state) :
  snd (row_loop cfg source_file header_map st rows) = Ok st' ->
  total st' = total st + Z.of_nat (length rows)
  /\ good st' + bad st' = good st + bad st + Z.of_nat (length rows)
  /\ good st <= good st' /\ bad st <= bad st'.
Proof.
  revert st. induction rows as [|row rows IH]; intros st; simpl.
  - intros [= <-]. lia.
  - destruct (loop_body _ _ _ _ _) as [out [st1|e]] eqn:Eb; [|discriminate].
    destruct (row_loop _ _ _ st1 rows) as [out' r] eqn:El. simpl.
    intros ->.
    assert (Hb : snd (loop_body cfg source_file header_map st row) = Ok st1)
      by (by rewrite Eb).
    apply loop_body_counts in Hb.
    specialize (IH st1). rewrite El in IH. specialize (IH eq_refl). lia.
Qed.

(** C8: when the row loop of a file has run to its end, [total] is
    [good] plus [bad] and is the number of rows read, each iteration
    having added one to [total] and to exactly one of [good] and [bad];
    [main] then returns, and the one audit record it inserts carries
    that [total] and that [bad]. *)
Theorem counters_add_up (event : Event) (w : World) (content : pystr)
    (out : list pystr) (st : loop_state) :
  startswith (BUCKET_PREFIX cfg) (ev_name event) = true ->
  blobs w !! (ev_bucket event, ev_name event) = Some content ->
  file_loop cfg (ev_bucket event) (ev_name event) content = (out, Ok st) ->
  total st = good st + bad st
  /\ total st = Z.of_nat (length (snd (csv_DictReader content)))
  /\ 0 <= good st /\ 0 <= bad st
  /\ (forall source_file header_map s row s',
        snd (loop_body cfg source_file header_map s row) = Ok s' ->
        total s' = total s + 1
        /\ ((good s' = good s + 1 /\ bad s' = bad s)
            \/ (good s' = good s /\ bad s' = bad s + 1)))
  /\ exists w',
      main cfg event w = (Ok tt, w')
      /\ List.filter is_audit (calls w')
         = List.filter is_audit (calls w)
           ++ [ audit_insert (gs_uri (ev_bucket event) (ev_name event))
                  (total st) (bad st) (audit_note (good st) (bad st)) ].
Proof.
  intros Hpre Hblob Hloop.
  assert (Hc : snd (file_loop cfg (ev_bucket event) (ev_name event) content)
               = Ok st) by (by rewrite Hloop).
  apply row_loop_counts in Hc. simpl in Hc.
  split; [lia|]. split; [lia|]. split; [lia|]. split; [lia|].
  split; [intros sf hm s row s'; apply loop_body_counts|].
  exists (world_after cfg event content out st w).
  split; [by apply main_run|].
  unfold world_after. cbn [calls]. rewrite List.filter_app. f_equal.
  unfold batch_calls, closing_calls. by destruct (0 <? good st).
Qed.

(** ** Files whose loop runs to its end *)

(** When the loop of a file runs to its end, [main] audits and moves the
    file.  Without an accepted row it makes exactly four calls, the
    download, one audit insert, the copy to [processed/] and the delete;
    it writes no batch and calls neither the load nor the merge.  With an
    accepted row the batch write, the load and the merge come between
    the download and the audit.  Either way the object is gone from its
    name; its text is under the processed name unless that is the name
    it had, in which case the delete removes the copy with it. *)
Lemma completed_loop_is_audited (event : Event) (w : World)
    (content : pystr) (out : list pystr) (st : loop_state) :
  startswith (BUCKET_PREFIX cfg) (ev_name event) = true ->
  blobs w !! (ev_bucket event, ev_name event) = Some content ->
  file_loop cfg (ev_bucket event) (ev_name event) content = (out, Ok st) ->
  let b := ev_bucket event in
  let name := ev_name event in
  let download := download_as_text b name in
  let audit :=
    audit_insert (gs_uri b name) (total st) (bad st)
      (audit_note (good st) (bad st)) in
  let copy := copy_blob b name (processed_key name) in
  let upload :=
    upload_from_string b (tmp_key cfg name) (buf st)
      (lit "application/x-ndjson") in
  let load :=
    load_table_from_uri (gs_uri b (tmp_key cfg name)) (STAGING_TABLE cfg) in
  exists w',
    main cfg event w = (Ok tt, w')
    /\ (good st = 0 ->
        calls w' = calls w ++ [download; audit; copy; delete_blob b name]
        /\ (tmp_key cfg name <> processed_key name ->
            blobs w' !! (b, tmp_key cfg name)
            = blobs w !! (b, tmp_key cfg name)))
    /\ (0 < good st ->
        calls w'
        = calls w ++ [ download; upload; load; merge_query (TIME_TOL_SEC cfg);
                       audit; copy; delete_blob b name ])
    /\ blobs w' !! (b, name) = None
    /\ blobs w' !! (b, processed_key name)
       = (if decide (processed_key name = name) then None else Some content).
Proof.
  intros Hpre Hblob Hloop. simpl.
  exists (world_after cfg event content out st w).
  split; [by apply main_run|].
  unfold world_after, batch_calls, closing_calls. cbn [calls blobs].
  split; [|split; [|split]].
  - intros Hg. rewrite Hg. simpl. split; [done|]. intros Hne.
    rewrite lookup_delete_ne.
    2:{ intros [= Heq]. symmetry in Heq. by apply tmp_key_fresh in Heq. }
    rewrite lookup_insert_ne; [done|]. intros [= Heq]. congruence.
  - intros Hg. apply Z.ltb_lt in Hg. by rewrite Hg.
  - apply lookup_delete_eq.
  - case_decide as Hk.
    + rewrite Hk. apply lookup_delete_eq.
    + rewrite lookup_delete_ne by (intros [= Heq]; congruence).
      apply lookup_insert_eq.
Qed.

(** ** The scenario of the specification *)

(** C1, as amended: the scenario row, with its phone number in a column
    that the mapper reads ([phone_number_dialed] or [phone_number]), is
    accepted with Phone "5551234567", Date 2025-09-02T15:02:00+00:00 and
    DedupKey "5551234567|L1|A|SALE|2025-09-02 15:02". *)
Theorem scenario_canonical_record (source_file : pystr) :
  let expected :=
    Some (Some (lit "5551234567"), lit "2025-09-02T15:02:00+00:00",
          lit "5551234567|L1|A|SALE|2025-09-02 15:02") in
  scenario_fields (scenario cfg source_file (lit "phone_number_dialed"))
  = expected
  /\ scenario_fields (scenario cfg source_file (lit "phone_number")) = expected.
Proof. split; vm_compute; reflexivity. Qed.

(** ** The entry guard *)

(** C9: an object whose name does not start with the input prefix is left
    alone: [main] returns at once and the world (objects, calls made,
    lines printed) is unchanged. *)
Theorem main_skips_foreign_objects (event : Event) (w : World) :
  startswith (BUCKET_PREFIX cfg) (ev_name event) = false ->
  main cfg event w = (Ok tt, w).
Proof. intros H. unfold main. rewrite H. reflexivity. Qed.

(** ** The header map *)

Lemma normalize_headers_snoc (fns : list (option pystr)) (h : option pystr) :
  normalize_headers (Some (fns ++ [h]))
  = <[clean h := h]> (normalize_headers (Some fns)).
Proof. unfold normalize_headers. simpl. by rewrite foldl_app. Qed.

(** An entry of the map holds a header of the file under its clean name. *)
Lemma normalize_headers_sound (fns : list (option pystr)) (k : pystr)
    (h : option pystr) :
  normalize_headers (Some fns) !! k = Some h -> h ∈ fns /\ clean h = k.
Proof.
  revert h. induction fns as [|x fns IH] using rev_ind; intros h.
  - unfold normalize_headers. simpl. by rewrite lookup_empty.
  - rewrite normalize_headers_snoc.
    destruct (decide (clean x = k)) as [<-|Hne].
    + rewrite lookup_insert_eq. intros [= <-]. split; [|done].
      apply elem_of_app. right. by apply list_elem_of_singleton.
    + rewrite lookup_insert_ne by done. intros Hk.
      destruct (IH _ Hk) as [Hin Hc]. split; [|done].
      apply elem_of_app. by left.
Qed.

(** Every header of the file has an entry under its clean name. *)
Lemma normalize_headers_complete (fns : list (option pystr))
    (h : option pystr) :
  h ∈ fns -> is_Some (normalize_headers (Some fns) !! clean h).
Proof.
  induction fns as [|x fns IH] using rev_ind; intros Hin.
  - by apply elem_of_nil in Hin.
  - rewrite normalize_headers_snoc.
    destruct (decide (clean x = clean h)) as [->|Hne].
    + rewrite lookup_insert_eq. by eexists.
    + rewrite lookup_insert_ne by done. apply IH.
      apply elem_of_app in Hin as [Hin|Hin]; [done|].
      apply list_elem_of_singleton in Hin. by subst.
Qed.

(** C7, as amended: no header is dropped when the map is built.  A header
    that is null, empty or blank has the empty clean name, and the map
    then has an entry under the empty key, holding one of the headers of
    the file with the empty clean name. *)
Theorem normalize_headers_keeps_empty (fns : list (option pystr))
    (h : option pystr) :
  h ∈ fns -> clean h = [] ->
  exists h', normalize_headers (Some fns) !! [] = Some h'
             /\ h' ∈ fns /\ clean h' = [].
Proof.
  intros Hin Hc.
  destruct (normalize_headers_complete fns h Hin) as [h' Hh'].
  rewrite Hc in Hh'. exists h'. split; [done|].
  by apply normalize_headers_sound.
Qed.

(** ** The dedup key is not injective *)

(** C10: the dedup key is not injective.  The parts are joined with "|"
    and a part may itself hold "|": the rows with list "A", status "B|C"
    and with list "A|B", status "C", of the same call minute, are both
    accepted, differ in their identity fields, and get the same DedupKey
    and the same RowHash. *)
Theorem dedup_key_not_injective (source_file : pystr) :
  let date := lit "2025-09-02T15:02:00+00:00" in
  let key := lit "||A|B|C|2025-09-02 15:02" in
  let hash :=
    lit "30591a96bd08bfca8b3991b6dda4750e8f95efaf68e93e88f8751d880de33353" in
  fingerprint_view (collision cfg source_file "A" "B|C")
  = Some (None, None, Some (lit "A"), Some (lit "B|C"), date, key, hash)
  /\ fingerprint_view (collision cfg source_file "A|B" "C")
     = Some (None, None, Some (lit "A|B"), Some (lit "C"), date, key, hash)
  /\ (Some (lit "A"), Some (lit "B|C")) <> (Some (lit "A|B"), Some (lit "C")).
Proof.
  split; [vm_compute; reflexivity|].
  split; [vm_compute; reflexivity|].
  vm_compute. discriminate.
Qed.

(** * Further properties of the helpers *)

(** ** [strip] *)

Lemma lstrip_split (s : pystr) :
  exists ws, s = ws ++ lstrip s /\ blank ws = true.
Proof.
  induction s as [|c s (ws & Hs & Hws)]; simpl.
  - by exists [].
  - destruct (isspace c) eqn:Ec.
    + exists (c :: ws). simpl. rewrite Ec, Hws. split; [|done]. by f_equal.
    + by exists [].
Qed.

Lemma lstrip_head (s : pystr) (c : N) (t : pystr) :
  lstrip s = c :: t -> isspace c = false.
Proof.
  induction s as [|x s IH]; simpl; [discriminate|].
  destruct (isspace x) eqn:Ex; [exact IH|]. by intros [= <- _].
Qed.

Lemma lstrip_fixed (s : pystr) :
  match s with [] => True | c :: _ => isspace c = false end ->
  lstrip s = s.
Proof. destruct s as [|c s]; simpl; [done|]. by intros ->. Qed.

Lemma lstrip_blank (s : pystr) : blank s = true -> lstrip s = [].
Proof.
  induction s as [|c s IH]; simpl; [done|].
  intros [Hc Hs]%andb_true_iff. rewrite Hc. by apply IH.
Qed.

Lemma blank_app (a b : pystr) : blank (a ++ b) = blank a && blank b.
Proof. apply forallb_app. Qed.

Lemma blank_rev (s : pystr) : blank (rev s) = blank s.
Proof.
  induction s as [|c s IH]; simpl; [done|].
  rewrite blank_app, IH. simpl. rewrite andb_true_r. apply andb_comm.
Qed.

Lemma rstrip_split (s : pystr) :
  exists ws, s = rstrip s ++ ws /\ blank ws = true.
Proof.
  destruct (lstrip_split (rev s)) as (ws & Hs & Hws).
  exists (rev ws). split; [|by rewrite blank_rev].
  unfold rstrip. rewrite <- rev_app_distr, <- Hs. by rewrite rev_involutive.
Qed.

(** The result of [strip] has no whitespace at either end. *)
Lemma strip_trimmed (s : pystr) : trimmed (strip s).
Proof.
  unfold trimmed, strip. split.
  - destruct (rstrip (lstrip s)) as [|c t] eqn:Er; [done|].
    destruct (rstrip_split (lstrip s)) as (ws & Hs & _).
    rewrite Er in Hs. simpl in Hs. by apply lstrip_head in Hs.
  - unfold rstrip. rewrite rev_involutive.
    destruct (lstrip (rev (lstrip s))) as [|c t] eqn:El; [done|].
    by apply lstrip_head in El.
Qed.

(** A trimmed text is left as it is. *)
Lemma strip_fixed (t : pystr) : trimmed t -> strip t = t.
Proof.
  intros [Hh Hl]. unfold strip, rstrip.
  rewrite (lstrip_fixed t Hh), (lstrip_fixed (rev t) Hl).
  apply rev_involutive.
Qed.

Lemma strip_idempotent (s : pystr) : strip (strip s) = strip s.
Proof. apply strip_fixed, strip_trimmed. Qed.

(** [strip] leaves nothing exactly of the blank texts. *)
Lemma strip_nil (s : pystr) : strip s = [] <-> blank s = true.
Proof.
  split.
  - intros Hs. destruct (lstrip_split s) as (ws & Hl & Hws).
    destruct (rstrip_split (lstrip s)) as (ws' & Hr & Hws').
    unfold strip in Hs. rewrite Hs in Hr. simpl in Hr.
    rewrite Hl, Hr, blank_app, Hws, Hws'. done.
  - intros Hb. unfold strip. rewrite (lstrip_blank s Hb). reflexivity.
Qed.

(** ** [safe_str] and [normalize_phone] *)

(** X1: [safe_str] answers [None] exactly for [None] and for blank
    texts; any other answer is the stripped text, which is not empty, has
    no whitespace at either end, and is a fixed point of [safe_str]. *)
Theorem safe_str_shape (x : option pystr) :
  (safe_str x = None
   <-> x = None \/ exists s, x = Some s /\ blank s = true)
  /\ (forall t, safe_str x = Some t ->
        (exists s, x = Some s /\ t = strip s)
        /\ t <> [] /\ trimmed t /\ safe_str (Some t) = Some t).
Proof.
  split.
  - destruct x as [s|]; simpl; [|by split; [left|]].
    destruct (strip s) as [|c t] eqn:Es; simpl.
    + split; [|done]. intros _. right. exists s. split; [done|].
      by apply strip_nil.
    + split; [discriminate|]. intros [[=]|(s' & [= <-] & Hb)].
      apply strip_nil in Hb. congruence.
  - intros t. destruct x as [s|]; simpl; [|discriminate].
    destruct (strip s) as [|c u] eqn:Es; simpl; [discriminate|].
    intros [= <-]. split; [by exists s|]. split; [done|].
    assert (Ht : trimmed (c :: u)) by (rewrite <- Es; apply strip_trimmed).
    split; [exact Ht|]. by rewrite (strip_fixed _ Ht).
Qed.

Lemma filter_idempotent {A} (f : A -> bool) (l : list A) :
  List.filter f (List.filter f l) = List.filter f l.
Proof.
  induction l as [|a l IH]; simpl; [done|].
  destruct (f a) eqn:Ea; simpl; [|done]. by rewrite Ea, IH.
Qed.

Lemma filter_all {A} (f : A -> bool) (l : list A) :
  forallb f (List.filter f l) = true.
Proof.
  induction l as [|a l IH]; simpl; [done|].
  destruct (f a) eqn:Ea; simpl; [|done]. by rewrite Ea, IH.
Qed.

Lemma filter_none {A} (f : A -> bool) (l : list A) :
  List.filter f l = [] <-> forallb (fun a => negb (f a)) l = true.
Proof.
  induction l as [|a l IH]; simpl; [done|].
  destruct (f a); simpl; [split; discriminate|exact IH].
Qed.

(** X2: [normalize_phone] answers [None] exactly for [None] and for
    texts without a decimal digit; any other answer is the digits of the
    text in their order, is not empty, holds decimal digits only, and is
    a fixed point of [normalize_phone]. *)
Theorem normalize_phone_shape (val : option pystr) :
  (normalize_phone val = None
   <-> val = None
       \/ exists v, val = Some v
                    /\ forallb (fun c => negb (isdecimal c)) v = true)
  /\ (forall p, normalize_phone val = Some p ->
        (exists v, val = Some v /\ p = List.filter isdecimal v)
        /\ p <> [] /\ forallb isdecimal p = true
        /\ normalize_phone (Some p) = Some p).
Proof.
  split.
  - destruct val as [v|]; simpl; [|by split; [left|]].
    destruct (List.filter isdecimal v) as [|c t] eqn:Ef; simpl.
    + split; [|done]. intros _. right. exists v. split; [done|].
      by apply filter_none.
    + split; [discriminate|]. intros [[=]|(v' & [= <-] & Hn)].
      apply filter_none in Hn. congruence.
  - intros p. destruct val as [v|]; simpl; [|discriminate].
    destruct (List.filter isdecimal v) as [|c t] eqn:Ef; simpl;
      [discriminate|].
    intros [= <-]. split; [by exists v|]. split; [done|].
    split; [rewrite <- Ef; apply filter_all|].
    rewrite <- Ef, filter_idempotent, Ef. reflexivity.
Qed.

(** ** Header resolution and field lookup *)

(** [get_val] tries its candidates in order: the value of the first, when
    its column exists and holds a value, the answer for the others
    otherwise. *)
Lemma get_val_cons (row header_map : gmap pystr (option pystr))
    (cand : pystr) (rest : list pystr) :
  get_val row header_map (cand :: rest)
  = match dict_get header_map (clean (Some cand)) ≫= dict_get row with
    | Some v => Some v
    | None => get_val row header_map rest
    end.
Proof.
  simpl. unfold clean.
  destruct (dict_get header_map _) as [orig|]; simpl; [|done].
  by destruct (dict_get row orig).
Qed.

(** The map holds, under a clean name, the last header with that name. *)
Lemma normalize_headers_last (pre post : list (option pystr))
    (h : option pystr) :
  Forall (fun h' => clean h' <> clean h) post ->
  normalize_headers (Some (pre ++ h :: post)) !! clean h = Some h.
Proof.
  induction post as [|x post IH] using rev_ind; intros Hpost.
  - by rewrite normalize_headers_snoc, lookup_insert_eq.
  - apply Forall_app in Hpost as [Hpost Hx].
    change (pre ++ h :: post ++ [x]) with (pre ++ (h :: post) ++ [x]).
    rewrite app_assoc, normalize_headers_snoc.
    rewrite lookup_insert_ne; [by apply IH|].
    by inversion Hx.
Qed.

(** X3: duplicate headers, last one wins.  When several headers of a file
    have the clean name of a candidate, [get_val] reads the column of the
    last of them; when that column holds no value in the row, it goes on
    with the other candidates. *)
Theorem get_val_reads_last_header (pre post : list (option pystr))
    (h : pystr) (row : gmap pystr (option pystr)) (cand : pystr)
    (rest : list pystr) :
  clean (Some h) = clean (Some cand) ->
  Forall (fun h' => clean h' <> clean (Some cand)) post ->
  let header_map := normalize_headers (Some (pre ++ Some h :: post)) in
  get_val row header_map (cand :: rest)
  = match dict_get row h with
    | Some v => Some v
    | None => get_val row header_map rest
    end.
Proof.
  intros Hc Hpost. cbv zeta. rewrite get_val_cons. rewrite <- Hc in *.
  assert (Hl := normalize_headers_last pre post (Some h) Hpost).
  unfold dict_get. rewrite Hl. reflexivity.
Qed.

(** X4: a missing column.  When no header of the file has the clean name
    of any candidate (in particular when the file has no header line),
    [get_val] answers [None], whatever the row holds. *)
Theorem get_val_missing_column (fieldnames : option (list (option pystr)))
    (row : gmap pystr (option pystr)) (candidates : list pystr) :
  (forall cand h, cand ∈ candidates -> h ∈ default [] fieldnames ->
                  clean h <> clean (Some cand)) ->
  get_val row (normalize_headers fieldnames) candidates = None.
Proof.
  intros Hmiss. induction candidates as [|cand rest IH]; [done|].
  rewrite get_val_cons.
  assert (Hk : normalize_headers fieldnames !! clean (Some cand) = None).
  { destruct (normalize_headers fieldnames !! clean (Some cand))
      as [h|] eqn:El; [|done]. exfalso.
    assert (El' : normalize_headers (Some (default [] fieldnames))
                  !! clean (Some cand) = Some h) by (by destruct fieldnames).
    apply normalize_headers_sound in El' as [Hin Hc].
    apply (Hmiss cand h); [apply list_elem_of_here|done..]. }
  unfold dict_get. rewrite Hk. simpl. apply IH.
  intros c h Hc. apply Hmiss. by apply list_elem_of_further.
Qed.

(** X5: whatever [get_val] answers is a value that the row holds, in a
    column whose header has the clean name of one of the candidates. *)
Theorem get_val_from_row (fieldnames : option (list (option pystr)))
    (row : gmap pystr (option pystr)) (candidates : list pystr)
    (v : pystr) :
  get_val row (normalize_headers fieldnames) candidates = Some v ->
  exists cand h,
    cand ∈ candidates /\ Some h ∈ default [] fieldnames
    /\ clean (Some h) = clean (Some cand) /\ row !! h = Some (Some v).
Proof.
  induction candidates as [|cand rest IH]; [discriminate|].
  rewrite get_val_cons.
  destruct (dict_get (normalize_headers fieldnames) (clean (Some cand)))
    as [h|] eqn:Eh; simpl.
  - destruct (dict_get row h) as [v'|] eqn:Ev.
    + intros [= <-]. exists cand, h. split; [apply list_elem_of_here|].
      unfold dict_get in Eh, Ev.
      destruct (normalize_headers fieldnames !! clean (Some cand))
        as [[h'|]|] eqn:El; simpl in Eh; try discriminate.
      injection Eh as ->.
      assert (El' : normalize_headers (Some (default [] fieldnames))
                    !! clean (Some cand) = Some (Some h))
        by (by destruct fieldnames).
      apply normalize_headers_sound in El' as [Hin Hc].
      split; [done|]. split; [done|].
      destruct (row !! h) as [[v''|]|]; simpl in Ev; try discriminate.
      by injection Ev as ->.
    + intros Hr. destruct (IH Hr) as (c & h' & Hc & Hrest).
      exists c, h'. split; [by apply list_elem_of_further|done].
  - intros Hr. destruct (IH Hr) as (c & h' & Hc & Hrest).
    exists c, h'. split; [by apply list_elem_of_further|done].
Qed.

(** ** The lead identifier *)

Lemma pick_lead_id_go_cons (row header_map : gmap pystr (option pystr))
    (k : pystr) (keys : list pystr) :
  pick_lead_id_go row header_map (k :: keys)
  = match get_val row header_map [k] with
    | Some (c :: v) => Some (strip (c :: v))
    | _ => pick_lead_id_go row header_map keys
    end.
Proof. reflexivity. Qed.

(** The closing lookup, when neither column holds a non-empty text. *)
Lemma lead_id_fallback_None (row header_map : gmap pystr (option pystr)) :
  match get_val row header_map [lit "vendor_lead_code"] with
  | Some (_ :: _) => False
  | _ => True
  end ->
  match get_val row header_map [lit "lead_id"] with
  | Some (_ :: _) => False
  | _ => True
  end ->
  safe_str (get_val row header_map [lit "vendor_lead_code"; lit "lead_id"])
  = None.
Proof.
  rewrite (get_val_cons row header_map (lit "vendor_lead_code")
             [lit "lead_id"]).
  rewrite (get_val_cons row header_map (lit "vendor_lead_code") []).
  destruct (dict_get header_map (clean (Some (lit "vendor_lead_code")))
            ≫= dict_get row) as [[|c v]|]; [done|done|].
  intros _. by destruct (get_val row header_map [lit "lead_id"]) as [[|c v]|].
Qed.

(** X6: the lead identifier comes from the first of the columns
    [lead_id], [vendor_lead_code], [LeadID] that holds a non-empty text,
    stripped; when none does, the answer is [None]: the closing lookup of
    [vendor_lead_code] and [lead_id] never yields a value. *)
Theorem pick_lead_id_priority (row header_map : gmap pystr (option pystr)) :
  pick_lead_id row header_map
  = match field row header_map "lead_id" with
    | Some (c :: v) => Some (strip (c :: v))
    | _ =>
        match field row header_map "vendor_lead_code" with
        | Some (c :: v) => Some (strip (c :: v))
        | _ =>
            match field row header_map "LeadID" with
            | Some (c :: v) => Some (strip (c :: v))
            | _ => None
            end
        end
    end.
Proof.
  unfold pick_lead_id, LEAD_KEYS, field.
  rewrite !pick_lead_id_go_cons.
  change (pick_lead_id_go row header_map [])
    with (safe_str (get_val row header_map
                      [lit "vendor_lead_code"; lit "lead_id"])).
  pose proof (lead_id_fallback_None row header_map) as Hf.
  destruct (get_val row header_map [lit "lead_id"]) as [[|c1 v1]|];
    destruct (get_val row header_map [lit "vendor_lead_code"])
      as [[|c2 v2]|];
    destruct (get_val row header_map [lit "LeadID"]) as [[|c3 v3]|];
    try reflexivity; by apply Hf.
Qed.

(** ** [parse_date_local], from outside *)

(** A format that fails is followed by the others, after its line. *)
Lemma parse_formats_skip (txt : pystr) (tz : option tzinfo)
    (pre rest : list pystr) :
  Forall (format_fails cfg txt tz) pre ->
  parse_formats cfg txt tz (pre ++ rest)
  = (map (parse_failed_msg txt) pre
     ++ fst (parse_formats cfg txt tz rest),
     snd (parse_formats cfg txt tz rest)).
Proof.
  intros Hpre. induction Hpre as [|f pre (e & He & Hv) _ IH]; simpl.
  - by destruct (parse_formats cfg txt tz rest).
  - by rewrite He, Hv, IH.
Qed.


(** X7: the first format that [strptime] accepts decides.  The formats
    before it each print their line; the naive time it reads is converted
    from the row's zone, or the configured one, to UTC; when that
    conversion overflows, the exception leaves the function.  Either way
    no later format is tried. *)
Theorem parse_date_local_first_match (s : pystr) (tz : option tzinfo)
    (pre : list pystr) (fmt : pystr) (post : list pystr)
    (dt_naive : datetime) (zone : tzinfo) :
  DT_FORMATS = pre ++ fmt :: post ->
  Forall (fun f => exists e, strptime (strip s) f = Raise e) pre ->
  strptime (strip s) fmt = Ok dt_naive ->
  match tz with Some z => Ok z | None => SRC_TZ_OBJ cfg end = Ok zone ->
  parse_date_local cfg (Some s) tz
  = (map (parse_failed_msg (strip s)) pre,
     match astimezone_UTC zone dt_naive with
     | Ok dt_utc => Ok (Some (strip s, dt_utc))
     | Raise e => Raise e
     end).
Proof.
  intros Hfmts Hpre Hfmt Hzone. unfold parse_date_local.
  destruct (strip s) as [|c txt] eqn:Es.
  { exfalso. pose proof strptime_empty as Hemp. rewrite Hfmts in Hemp.
    apply Forall_app in Hemp as [_ Hemp]. inversion Hemp as [|? ? (e & He) _].
    congruence. }
  rewrite Hfmts, parse_formats_skip.
  2:{ eapply Forall_impl; [exact Hpre|].
      intros f Hf. by apply format_fails_iff. }
  simpl. unfold parse_with at 1 2. rewrite Hfmt. simpl. rewrite Hzone. simpl.
  destruct (astimezone_UTC zone dt_naive) as [u|e] eqn:Eu; simpl.
  - by rewrite app_nil_r.
  - apply astimezone_UTC_raises in Eu as ->. simpl. by rewrite app_nil_r.
Qed.

(** X8: a call date that is absent or blank is unparseable, silently;
    a call date that no format parses is unparseable after one printed
    line for each of the eight formats, in their order, whatever the
    zone. *)
Theorem parse_date_local_unparseable (s : option pystr)
    (tz : option tzinfo) :
  no_format_matches s ->
  parse_date_local cfg s tz
  = (match s with
     | Some t =>
         if blank t then []
         else map (parse_failed_msg (strip t)) DT_FORMATS
     | None => []
     end,
     Ok None).
Proof.
  intros Hno. destruct s as [t|]; [|done]. unfold parse_date_local.
  destruct (blank t) eqn:Eb.
  - apply strip_nil in Eb. by rewrite Eb.
  - destruct (strip t) as [|c txt] eqn:Es.
    { apply strip_nil in Es. congruence. }
    simpl in Hno. rewrite Es in Hno.
    pose proof (parse_formats_skip (c :: txt) tz DT_FORMATS []) as Hs.
    rewrite app_nil_r in Hs.
    rewrite Hs; [cbn [parse_formats fst snd]; by rewrite app_nil_r|].
    eapply Forall_impl; [exact Hno|]. intros f Hf.
    by apply format_fails_iff.
Qed.


(** ** The fields of an accepted record *)

Lemma or_None_strip_clean (s : pystr) : clean_field (or_None (strip s)).
Proof.
  pose proof (strip_trimmed s) as Ht.
  destruct (strip s) as [|c t]; [done|]. by split.
Qed.

Lemma safe_str_clean (x : option pystr) : clean_field (safe_str x).
Proof. destruct x as [s|]; simpl; [apply or_None_strip_clean|done]. Qed.

Lemma normalize_phone_digits (val : option pystr) :
  match normalize_phone val with
  | None => True
  | Some p => p <> [] /\ forallb isdecimal p = true
  end.
Proof.
  destruct val as [v|]; simpl; [|done].
  pose proof (filter_all isdecimal v) as Hall.
  destruct (List.filter isdecimal v) as [|c t]; [done|]. by split.
Qed.


(** The fields of the key, for the two theorems that follow. *)
Lemma accepted_key_fields (source_file : pystr)
    (header_map row : gmap pystr (option pystr)) (m : CanonicalRecord) :
  snd (process_row cfg source_file header_map row) = Ok (Accepted m) ->
  clean_field (LeadID m) /\ clean_field (ListID m)
  /\ clean_field (Disposition m)
  /\ match Phone m with
     | None => True
     | Some p => p <> [] /\ forallb isdecimal p = true
     end.
Proof.
  intros Ha.
  apply process_row_accepted in Ha as (row_tz & txt & d & _ & _ & Hm).
  unfold map_row in Hm. apply bind_Ok in Hm as (data & _ & [= <-]). simpl.
  split; [destruct (pick_lead_id row header_map);
          [apply or_None_strip_clean|done]|].
  split; [apply safe_str_clean|]. split; [apply safe_str_clean|].
  apply normalize_phone_digits.
Qed.

(** ** The dedup key without separators in the fields *)

Lemma contains_cons (c x : N) (s : pystr) :
  contains c (x :: s) = (c =? x)%N || contains c s.
Proof. reflexivity. Qed.

Lemma pipe_split (a a' r r' : pystr) :
  contains (chr "|") a = false -> contains (chr "|") a' = false ->
  a ++ chr "|" :: r = a' ++ chr "|" :: r' -> a = a' /\ r = r'.
Proof.
  revert a'. induction a as [|x a IH]; intros [|x' a'] Ha Ha' Heq.
  - by injection Heq as ->.
  - injection Heq as <- _.
    rewrite contains_cons, N.eqb_refl in Ha'. discriminate.
  - injection Heq as -> _.
    rewrite contains_cons, N.eqb_refl in Ha. discriminate.
  - injection Heq as -> Heq. rewrite contains_cons in Ha, Ha'.
    apply orb_false_iff in Ha as [_ Ha].
    apply orb_false_iff in Ha' as [_ Ha'].
    destruct (IH a' Ha Ha' Heq) as [-> ->]. done.
Qed.

Lemma digits_pipe_free (p : pystr) :
  forallb isdecimal p = true -> contains (chr "|") p = false.
Proof.
  induction p as [|c p IH]; [done|].
  cbn [forallb]. intros [Hc Hp]%andb_true_iff.
  rewrite contains_cons, (IH Hp), orb_false_r.
  destruct (N.eqb_spec (chr "|") c) as [<-|]; [|done].
  by vm_compute in Hc.
Qed.

Lemma or_empty_inj (x y : option pystr) :
  match x with Some [] => False | _ => True end ->
  match y with Some [] => False | _ => True end ->
  or_empty x = or_empty y -> x = y.
Proof.
  destruct x as [[|a s]|], y as [[|b t]|]; simpl; intros Hx Hy Heq;
    try done; congruence.
Qed.

Lemma clean_field_nonempty (x : option pystr) :
  clean_field x -> match x with Some [] => False | _ => True end.
Proof. destruct x as [[|a s]|]; simpl; [by intros [? _]|done..]. Qed.

(** X10: the dedup key is injective when no field holds the separator.
    Two accepted rows whose LeadID, ListID and Disposition are free of
    "|" and whose DedupKeys are equal have the same Phone, LeadID, ListID
    and Disposition, and the same UTC minute text. *)
Theorem dedup_key_injective_without_pipes
    (sf1 sf2 : pystr) (hm1 row1 hm2 row2 : gmap pystr (option pystr))
    (m1 m2 : CanonicalRecord) (t1 t2 : pystr) (d1 d2 : datetime) :
  snd (process_row cfg sf1 hm1 row1) = Ok (Accepted m1) ->
  row_instant cfg hm1 row1 = Ok (Some (t1, d1)) ->
  snd (process_row cfg sf2 hm2 row2) = Ok (Accepted m2) ->
  row_instant cfg hm2 row2 = Ok (Some (t2, d2)) ->
  pipe_free (LeadID m1) -> pipe_free (ListID m1) ->
  pipe_free (Disposition m1) ->
  pipe_free (LeadID m2) -> pipe_free (ListID m2) ->
  pipe_free (Disposition m2) ->
  DedupKey m1 = DedupKey m2 ->
  identity_fields m1 = identity_fields m2
  /\ strftime_minute d1 = strftime_minute d2.
Proof.
  intros Ha1 Hi1 Ha2 Hi2 Hl1 Hs1 Hd1 Hl2 Hs2 Hd2 Hkey.
  destruct (accepted_key_fields _ _ _ _ Ha1) as (Cl1 & Cs1 & Cd1 & Cp1).
  destruct (accepted_key_fields _ _ _ _ Ha2) as (Cl2 & Cs2 & Cd2 & Cp2).
  apply process_row_accepted in Ha1 as (tz1 & t1' & d1' & _ & Hi1' & Hm1).
  apply process_row_accepted in Ha2 as (tz2 & t2' & d2' & _ & Hi2' & Hm2).
  rewrite Hi1 in Hi1'. injection Hi1' as <- <-.
  rewrite Hi2 in Hi2'. injection Hi2' as <- <-.
  apply map_row_fingerprint in Hm1 as (_ & Hk1 & _).
  apply map_row_fingerprint in Hm2 as (_ & Hk2 & _).
  rewrite Hk1, Hk2 in Hkey. unfold dedup_key in Hkey. simpl in Hkey.
  assert (Pp1 : contains (chr "|") (or_empty (Phone m1)) = false).
  { destruct (Phone m1) as [p|]; [|done]. apply digits_pipe_free, Cp1. }
  assert (Pp2 : contains (chr "|") (or_empty (Phone m2)) = false).
  { destruct (Phone m2) as [p|]; [|done]. apply digits_pipe_free, Cp2. }
  apply pipe_split in Hkey as [Hp Hkey]; [|done..].
  apply pipe_split in Hkey as [Hl Hkey]; [|done..].
  apply pipe_split in Hkey as [Hs Hkey]; [|done..].
  apply pipe_split in Hkey as [Hd Hkey]; [|done..].
  split; [|exact Hkey]. unfold identity_fields.
  apply or_empty_inj in Hp;
    [|destruct (Phone m1) as [[|? ?]|]; [by destruct Cp1|done..]
     |destruct (Phone m2) as [[|? ?]|]; [by destruct Cp2|done..]].
  apply or_empty_inj in Hl; [|by apply clean_field_nonempty..].
  apply or_empty_inj in Hs; [|by apply clean_field_nonempty..].
  apply or_empty_inj in Hd; [|by apply clean_field_nonempty..].
  by rewrite Hp, Hl, Hs, Hd.
Qed.

(** ** Rows of well-formed text *)

Lemma get_val_in_row (row header_map : gmap pystr (option pystr))
    (candidates : list pystr) (v : pystr) :
  get_val row header_map candidates = Some v ->
  exists k, row !! k = Some (Some v).
Proof.
  induction candidates as [|cand rest IH]; [discriminate|].
  rewrite get_val_cons.
  destruct (dict_get header_map (clean (Some cand))) as [h|];
    simpl; [|exact IH].
  unfold dict_get at 1. destruct (row !! h) as [[v'|]|] eqn:Er; simpl;
    [|exact IH..].
  intros [= <-]. by exists h.
Qed.

Lemma forallb_lstrip (P : N -> bool) (s : pystr) :
  forallb P s = true -> forallb P (lstrip s) = true.
Proof.
  destruct (lstrip_split s) as (ws & Hs & _). rewrite Hs at 1.
  rewrite forallb_app. by intros [_ ?]%andb_true_iff.
Qed.

Lemma forallb_strip (P : N -> bool) (s : pystr) :
  forallb P s = true -> forallb P (strip s) = true.
Proof.
  intros Hs%forallb_lstrip. unfold strip.
  destruct (rstrip_split (lstrip s)) as (ws & Hr & _). rewrite Hr in Hs.
  rewrite forallb_app in Hs. by apply andb_true_iff in Hs as [? _].
Qed.

Lemma forallb_filter (P f : N -> bool) (s : pystr) :
  forallb P s = true -> forallb P (List.filter f s) = true.
Proof.
  induction s as [|c s IH]; simpl; [done|].
  intros [Hc Hs]%andb_true_iff. destruct (f c); simpl; [|by apply IH].
  by rewrite Hc, IH.
Qed.

Lemma lit_well_formed (s : string) : well_formed (lit s) = true.
Proof.
  induction s as [|a s IH]; [done|].
  cbn [lit well_formed forallb]. fold (well_formed (lit s)). rewrite IH.
  rewrite andb_true_r. unfold surrogate.
  pose proof (N_ascii_bounded a) as Ha.
  destruct (N.leb_spec 55296 (N_of_ascii a)); [lia|done].
Qed.

Lemma well_formed_app (a b : pystr) :
  well_formed (a ++ b) = well_formed a && well_formed b.
Proof. apply forallb_app. Qed.

Lemma str_Z_well_formed (z : Z) : well_formed (str_Z z) = true.
Proof.
  unfold str_Z, str_N. destruct (z <? 0); [|apply lit_well_formed].
  change (well_formed (lit "-" ++ lit (NilZero.string_of_uint
                                         (N.to_uint (Z.to_N (- z)))))
          = true).
  by rewrite well_formed_app, !lit_well_formed.
Qed.

Lemma zfill_well_formed (w : nat) (z : Z) : well_formed (zfill w z) = true.
Proof.
  unfold zfill. rewrite well_formed_app, str_Z_well_formed, andb_true_r.
  induction (w - length (str_Z z))%nat as [|n IH]; [done|]. exact IH.
Qed.

Lemma strftime_minute_well_formed (d : datetime) :
  well_formed (strftime_minute d) = true.
Proof.
  unfold strftime_minute.
  by rewrite !well_formed_app, !lit_well_formed, !zfill_well_formed,
       str_Z_well_formed.
Qed.

(** UTF-8 encodes every well-formed text. *)
Lemma str_encode_total (s : pystr) :
  well_formed s = true -> exists data, str_encode s = Ok data.
Proof.
  induction s as [|c s IH]; [by exists []|].
  cbn [well_formed forallb]. intros [Hc Hs]%andb_true_iff.
  destruct (IH Hs) as [bs Hbs].
  assert (Hu : exists b, utf8_char c = Ok b).
  { unfold utf8_char. unfold surrogate in Hc.
    destruct (c <? 128)%N; [eauto|]. destruct (c <? 2048)%N; [eauto|].
    destruct (c <? 65536)%N; [|eauto].
    destruct ((55296 <=? c) && (c <=? 57343))%N; [done|eauto]. }
  destruct Hu as [b Hb]. exists (b ++ bs).
  cbn [str_encode]. by rewrite Hb, Hbs.
Qed.

Lemma well_formed_or_None_strip (s : pystr) :
  well_formed s = true -> well_formed (or_empty (or_None (strip s))) = true.
Proof.
  intros Hs%(forallb_strip _). by destruct (strip s).
Qed.

Lemma well_formed_safe_str (row header_map : gmap pystr (option pystr))
    (candidates : list pystr) :
  well_formed_row row ->
  well_formed (or_empty (safe_str (get_val row header_map candidates)))
  = true.
Proof.
  intros Hrow. destruct (get_val row header_map candidates) as [v|] eqn:Ev;
    [|done].
  apply get_val_in_row in Ev as [k Hk]. simpl.
  by apply well_formed_or_None_strip, (Hrow k).
Qed.

Lemma well_formed_phone (row header_map : gmap pystr (option pystr))
    (candidates : list pystr) :
  well_formed_row row ->
  well_formed (or_empty (normalize_phone (get_val row header_map candidates)))
  = true.
Proof.
  intros Hrow. destruct (get_val row header_map candidates) as [v|] eqn:Ev;
    [|done].
  apply get_val_in_row in Ev as [k Hk]. unfold normalize_phone.
  pose proof (forallb_filter (fun c => negb (surrogate c)) isdecimal v
                (Hrow k v Hk)) as Hf.
  by destruct (List.filter isdecimal v).
Qed.

Lemma well_formed_lead_id (row header_map : gmap pystr (option pystr))
    (keys : list pystr) (l : pystr) :
  well_formed_row row ->
  pick_lead_id_go row header_map keys = Some l -> well_formed l = true.
Proof.
  intros Hrow. induction keys as [|k keys IH].
  - unfold pick_lead_id_go.
    destruct (get_val row header_map _) as [v|] eqn:Ev; [|discriminate].
    apply get_val_in_row in Ev as [k Hk]. simpl.
    pose proof (forallb_strip _ _ (Hrow k v Hk)) as Hs.
    destruct (strip v); [discriminate|]. by intros [= <-].
  - rewrite pick_lead_id_go_cons.
    destruct (get_val row header_map [k]) as [[|c v]|] eqn:Ev;
      [exact IH| |exact IH].
    apply get_val_in_row in Ev as [k' Hk]. intros [= <-].
    by apply forallb_strip, (Hrow k').
Qed.


(** The mapper does not fail on a row of well-formed text. *)
Lemma map_row_total (source_file : pystr)
    (row header_map : gmap pystr (option pystr)) (row_tz : option tzinfo)
    (src_txt : pystr) (dt_utc : datetime) :
  well_formed_row row ->
  exists m,
    map_row cfg source_file row header_map row_tz src_txt dt_utc = Ok m
    /\ Date m = isoformat_UTC dt_utc /\ SourceLocalTime m = src_txt.
Proof.
  intros Hrow. unfold map_row.
  destruct (str_encode_total
              (dedup_key
                 (normalize_phone
                    (get_val row header_map
                       [lit "phone_number_dialed"; lit "phone_number"]))
                 match pick_lead_id row header_map with
                 | Some l => or_None (strip l)
                 | None => None
                 end
                 (safe_str (field row header_map "list_id"))
                 (safe_str (field row header_map "status")) dt_utc))
    as [data Hdata].
  { unfold dedup_key. cbn [join].
    rewrite !well_formed_app, !lit_well_formed,
      strftime_minute_well_formed.
    unfold field. rewrite !well_formed_safe_str by done.
    rewrite well_formed_phone by done. rewrite !andb_true_r.
    destruct (pick_lead_id row header_map) as [l|] eqn:El; [|done].
    apply well_formed_or_None_strip.
    by apply (well_formed_lead_id row header_map LEAD_KEYS). }
  rewrite Hdata. simpl. eexists. split; [reflexivity|]. by split.
Qed.



(** ** The row loop, part by part *)

(** The loop on a file in two parts: the second part starts from the
    counters and the buffer that the first part ends with, and is not
    run when the first part raises. *)
Lemma row_loop_app (source_file : pystr)
    (header_map : gmap pystr (option pystr)) (st : loop_state)
    (rows1 rows2 : list (gmap pystr (option pystr))) :
  row_loop cfg source_file header_map st (rows1 ++ rows2)
  = match row_loop cfg source_file header_map st rows1 with
    | (out, Ok st1) =>
        let '(out', r) := row_loop cfg source_file header_map st1 rows2 in
        (out ++ out', r)
    | (out, Raise e) => (out, Raise e)
    end.
Proof.
  revert st. induction rows1 as [|row rows1 IH]; intros st; simpl.
  - by destruct (row_loop cfg source_file header_map st rows2).
  - destruct (loop_body cfg source_file header_map st row)
      as [out [st1|e]]; [|done].
    rewrite IH.
    destruct (row_loop cfg source_file header_map st1 rows1)
      as [out1 [st2|e]]; [|done].
    destruct (row_loop cfg source_file header_map st2 rows2) as [out2 r].
    by rewrite app_assoc.
Qed.



(** X13: an exception stops the loop at its row.  When the rows before a
    row run through and that row raises, the loop raises the same
    exception after the lines printed so far, whatever rows follow: they
    are not read. *)
Theorem row_loop_stops_at_exception (source_file : pystr)
    (header_map : gmap pystr (option pystr)) (st st1 : loop_state)
    (before : list (gmap pystr (option pystr)))
    (row : gmap pystr (option pystr))
    (after : list (gmap pystr (option pystr)))
    (out out' : list pystr) (e : exn) :
  row_loop cfg source_file header_map st before = (out, Ok st1) ->
  process_row cfg source_file header_map row = (out', Raise e) ->
  row_loop cfg source_file header_map st (before ++ row :: after)
  = (out ++ out', Raise e).
Proof.
  intros Hb Hr. rewrite row_loop_app, Hb. cbn [row_loop].
  unfold loop_body. by rewrite Hr.
Qed.

(** ** [main] when something is missing or raises *)

Lemma main_missing (event : Event) (w : World) :
  startswith (BUCKET_PREFIX cfg) (ev_name event) = true ->
  blobs w !! (ev_bucket event, ev_name event) = None ->
  main cfg event w
  = (Raise NotFound,
     log_call (download_as_text (ev_bucket event) (ev_name event)) w).
Proof.
  intros Hpre Hblob. unfold main. rewrite Hpre.
  change (negb true) with false. cbv iota.
  rewrite M_bind_run. unfold blob_download. by rewrite Hblob.
Qed.

(** When the loop of a file raises, [main] raises the same exception
    having done nothing but the download and the printing. *)
Lemma main_loop_raise (event : Event) (w : World)
    (content : pystr) (out : list pystr) (e : exn) :
  startswith (BUCKET_PREFIX cfg) (ev_name event) = true ->
  blobs w !! (ev_bucket event, ev_name event) = Some content ->
  file_loop cfg (ev_bucket event) (ev_name event) content
  = (out, Raise e) ->
  main cfg event w
  = (Raise e,
     mk_world (blobs w)
       (calls w ++ [download_as_text (ev_bucket event) (ev_name event)])
       (stdout w ++ out)).
Proof.
  intros Hpre Hblob Hloop. unfold main. rewrite Hpre.
  change (negb true) with false. cbv iota.
  rewrite M_bind_run. unfold blob_download. rewrite Hblob.
  rewrite M_bind_run. unfold file_loop in Hloop. unfold run_printing.
  by rewrite Hloop.
Qed.


(** X15: [main] is not repeatable on its own success.  After a run that
    returned, the object is gone, and a second delivery of the same event
    raises NotFound having done nothing but the download attempt. *)
Theorem main_twice (event : Event) (w : World) (content : pystr)
    (out : list pystr) (st : loop_state) :
  startswith (BUCKET_PREFIX cfg) (ev_name event) = true ->
  blobs w !! (ev_bucket event, ev_name event) = Some content ->
  file_loop cfg (ev_bucket event) (ev_name event) content = (out, Ok st) ->
  exists w',
    main cfg event w = (Ok tt, w')
    /\ main cfg event w'
       = (Raise NotFound,
          log_call (download_as_text (ev_bucket event) (ev_name event)) w').
Proof.
  intros Hpre Hblob Hloop.
  exists (world_after cfg event content out st w).
  split; [by apply main_run|]. apply main_missing; [done|].
  unfold world_after. cbn [blobs]. apply lookup_delete_eq.
Qed.

(** ** The zone of a row and its label *)

(** X17: a row-level override is never a named zone: it is a fixed
    offset of whole hours strictly between -24 and 24, read by [int] in
    the stripped [gmt_offset_now]; a missing or blank [gmt_offset_now]
    is no override.  The SourceTimezone of an accepted record is the
    label of that offset when there is one, and otherwise the configured
    SOURCE_TZ text as it stands, whatever zone it resolved to. *)
Theorem row_zone_and_label (source_file : pystr)
    (header_map row : gmap pystr (option pystr)) (m : CanonicalRecord) :
  snd (process_row cfg source_file header_map row) = Ok (Accepted m) ->
  let offset_str := field row header_map "gmt_offset_now" in
  ((offset_str = None \/ exists s, offset_str = Some s /\ blank s = true) ->
   tz_from_row_offset offset_str = Ok None)
  /\ ((tz_from_row_offset offset_str = Ok None
       /\ SourceTimezone m = SOURCE_TZ cfg)
      \/ exists h,
           -24 < h < 24
           /\ py_int (strip (str_of offset_str)) = Ok h
           /\ tz_from_row_offset offset_str = Ok (Some (timezone h))
           /\ SourceTimezone m = str_tz (timezone h)).
Proof.
  intros Ha. cbv zeta. split.
  - intros [->|(s & -> & Hs)]; rewrite tz_from_row_offset_spec.
    + by vm_compute.
    + apply strip_nil in Hs. unfold str_of. cbn [default from_option id].
      unfold py_int. rewrite Hs. reflexivity.
  - apply process_row_accepted in Ha as (row_tz & txt & d & Htz & _ & Hm).
    unfold map_row in Hm. apply bind_Ok in Hm as (data & _ & [= <-]).
    cbn [SourceTimezone]. rewrite Htz.
    destruct row_tz as [tz|]; [right|by left].
    rewrite tz_from_row_offset_spec in Htz. injection Htz as Htz.
    destruct (py_int (strip (str_of (field row header_map "gmt_offset_now"))))
      as [h|e] eqn:Eh; [|discriminate]. cbn [mbind result_bind] in Htz.
    destruct (timezone_of_hours h) as [tz'|e] eqn:Et; [|discriminate].
    injection Htz as ->. apply timezone_of_hours_Ok in Et as [Hh ->].
    by exists h.
Qed.

(** ** The archive name *)

Lemma rsplit1_last_whole (sep : N) (s : pystr) :
  contains sep s = false -> rsplit1_last sep s = s.
Proof. destruct s as [|c s]; [done|]. cbn [rsplit1_last]. by intros ->. Qed.

Lemma contains_app (c : N) (a b : pystr) :
  contains c (a ++ b) = contains c a || contains c b.
Proof. apply existsb_app. Qed.

Lemma rsplit1_last_app (sep : N) (dir base : pystr) :
  contains sep base = false ->
  rsplit1_last sep (dir ++ sep :: base) = base.
Proof.
  intros Hb. induction dir as [|c dir IH].
  - cbn [app rsplit1_last]. rewrite contains_cons, N.eqb_refl. simpl.
    by apply rsplit1_last_whole.
  - change ((c :: dir) ++ sep :: base) with (c :: (dir ++ sep :: base)).
    cbn [rsplit1_last].
    rewrite contains_cons, contains_app, contains_cons, N.eqb_refl.
    by rewrite orb_true_l, !orb_true_r.
Qed.

Lemma rsplit1_last_split (sep : N) (s : pystr) :
  exists dir,
    s = dir ++ rsplit1_last sep s
    /\ contains sep (rsplit1_last sep s) = false
    /\ (dir = [] \/ exists dir', dir = dir' ++ [sep]).
Proof.
  induction s as [|c s (dir & Hs & Hno & Hdir)].
  - exists []. split; [done|]. split; [done|]. by left.
  - cbn [rsplit1_last]. destruct (contains sep (c :: s)) eqn:Ec.
    + exists (c :: dir). split; [by rewrite Hs at 1|]. split; [done|].
      right. destruct Hdir as [->|(dir' & ->)].
      * exists []. simpl. f_equal.
        rewrite contains_cons in Ec. simpl in Hs. rewrite <- Hs in Hno.
        rewrite Hno, orb_false_r in Ec. by apply N.eqb_eq in Ec.
      * by exists (c :: dir').
    + exists []. split; [done|]. split; [done|]. by left.
Qed.

(** X18: the archive name keeps the base name only.  An object is
    archived as "processed/" followed by what follows its last "/" (its
    whole name when it has none), so that name holds no further "/", and
    two objects of different folders with the same base name are
    archived under one and the same name. *)
Theorem processed_key_is_base_name (name : pystr) :
  (exists dir base,
     name = dir ++ base
     /\ contains (chr "/") base = false
     /\ (dir = [] \/ exists dir', dir = dir' ++ lit "/")
     /\ processed_key name = lit "processed/" ++ base)
  /\ (forall dir1 dir2 base,
        contains (chr "/") base = false ->
        processed_key (dir1 ++ lit "/" ++ base)
        = processed_key (dir2 ++ lit "/" ++ base)).
Proof.
  split.
  - destruct (rsplit1_last_split (chr "/") name) as (dir & Hs & Hno & Hdir).
    exists dir, (rsplit1_last (chr "/") name). by repeat split.
  - intros dir1 dir2 base Hb. unfold processed_key.
    change (lit "/" ++ base) with (chr "/" :: base).
    by rewrite !rsplit1_last_app.
Qed.

(** ** Header variants *)

Lemma replace_single_cons (c : N) (new : pystr) (x : N) (s : pystr) :
  replace [c] new (x :: s)
  = (if (c =? x)%N then new else [x]) ++ replace [c] new s.
Proof.
  unfold replace. cbn [replace_go startswith length Nat.sub].
  rewrite andb_true_r. by destruct (c =? x)%N.
Qed.

Lemma replace_single_app (c : N) (new a b : pystr) :
  replace [c] new (a ++ b) = replace [c] new a ++ replace [c] new b.
Proof.
  induction a as [|x a IH]; [done|].
  change ((x :: a) ++ b) with (x :: (a ++ b)).
  by rewrite !replace_single_cons, IH, app_assoc.
Qed.

Lemma replace_absent (c : N) (new s : pystr) :
  contains c s = false -> replace [c] new s = s.
Proof.
  induction s as [|x s IH]; [done|].
  rewrite contains_cons. intros [Hx Hs]%orb_false_iff.
  by rewrite replace_single_cons, Hx, IH.
Qed.

Lemma blank_without_BOM (ws : pystr) :
  blank ws = true -> contains BOM ws = false.
Proof.
  induction ws as [|x ws IH]; [done|].
  cbn [blank forallb]. intros [Hx Hs]%andb_true_iff.
  rewrite contains_cons, (IH Hs), orb_false_r.
  destruct (N.eqb_spec BOM x) as [<-|]; [|done]. by vm_compute in Hx.
Qed.

Lemma blank_replace_NBSP (ws : pystr) :
  blank ws = true -> blank (replace [NBSP] (lit " ") ws) = true.
Proof.
  induction ws as [|x ws IH]; [done|].
  cbn [blank forallb]. intros [Hx Hs]%andb_true_iff.
  rewrite replace_single_cons, blank_app, (IH Hs), andb_true_r.
  destruct (NBSP =? x)%N; [done|]. cbn [blank forallb]. by rewrite Hx.
Qed.

Lemma lstrip_app_blank (a x : pystr) :
  blank a = true -> lstrip (a ++ x) = lstrip x.
Proof.
  induction a as [|c a IH]; [done|].
  cbn [blank forallb]. intros [Hc Ha]%andb_true_iff.
  cbn [app lstrip]. rewrite Hc. by apply IH.
Qed.

Lemma rstrip_app_blank (x b : pystr) :
  blank b = true -> rstrip (x ++ b) = rstrip x.
Proof.
  intros Hb. unfold rstrip. rewrite rev_app_distr.
  rewrite lstrip_app_blank; [done|]. by rewrite blank_rev.
Qed.

(** Whitespace around a text does not change what [strip] leaves. *)
Lemma strip_padded (a x b : pystr) :
  blank a = true -> blank b = true -> strip (a ++ x ++ b) = strip x.
Proof.
  intros Ha Hb. unfold strip. rewrite (lstrip_app_blank a _ Ha).
  induction x as [|c x IH].
  - cbn [app]. by rewrite (lstrip_blank b Hb).
  - cbn [app lstrip]. destruct (isspace c); [exact IH|].
    change (c :: x ++ b) with ((c :: x) ++ b). by apply rstrip_app_blank.
Qed.

Lemma clean_BOM (h : pystr) : clean (Some (BOM :: h)) = clean (Some h).
Proof.
  unfold clean. by rewrite replace_single_cons, N.eqb_refl.
Qed.

Lemma clean_padded (a h b : pystr) :
  blank a = true -> blank b = true ->
  clean (Some (a ++ h ++ b)) = clean (Some h).
Proof.
  intros Ha Hb. unfold clean. rewrite !replace_single_app.
  rewrite (replace_absent BOM [] a) by (by apply blank_without_BOM).
  rewrite (replace_absent BOM [] b) by (by apply blank_without_BOM).
  by rewrite strip_padded by (by apply blank_replace_NBSP).
Qed.

(** Comparisons of code points, decided. *)
Ltac split_comparisons :=
  repeat match goal with
         | |- context [(?a <=? ?b)%N] => destruct (N.leb_spec a b); try lia
         | |- context [(?a =? ?b)%N] => destruct (N.eqb_spec a b); try lia
         end.

Lemma isspace_ascii_lower (c : N) : isspace (ascii_lower c) = isspace c.
Proof.
  unfold ascii_lower.
  destruct (N.leb_spec 65 c); [|done]. destruct (N.leb_spec c 90); [|done].
  cbn [andb]. unfold isspace. split_comparisons; reflexivity.
Qed.

Lemma lstrip_map_lower (s : pystr) :
  lstrip (map ascii_lower s) = map ascii_lower (lstrip s).
Proof.
  induction s as [|c s IH]; [done|].
  cbn [map lstrip]. rewrite isspace_ascii_lower, IH.
  by destruct (isspace c).
Qed.

Lemma strip_map_lower (s : pystr) :
  strip (map ascii_lower s) = map ascii_lower (strip s).
Proof.
  unfold strip, rstrip.
  by rewrite lstrip_map_lower, <- List.map_rev, lstrip_map_lower,
       <- List.map_rev.
Qed.

Lemma ascii_without (c : N) (s : pystr) :
  (128 <= c)%N -> is_ascii s = true -> contains c s = false.
Proof.
  intros Hc. induction s as [|x s IH]; [done|].
  cbn [is_ascii forallb]. intros [Hx Hs]%andb_true_iff.
  rewrite contains_cons, (IH Hs), orb_false_r.
  apply N.ltb_lt in Hx. destruct (N.eqb_spec c x); [lia|done].
Qed.

(** The clean name of an ASCII header. *)
Lemma clean_ascii (h : pystr) :
  is_ascii h = true -> clean (Some h) = strip (map ascii_lower h).
Proof.
  intros Hh. unfold clean.
  rewrite (replace_absent BOM [] h)
    by (apply ascii_without; [by vm_compute|done]).
  rewrite (replace_absent NBSP (lit " ") h)
    by (apply ascii_without; [by vm_compute|done]).
  assert (Hs : is_ascii (strip h) = true) by (by apply forallb_strip).
  unfold lower. rewrite Hs. by rewrite strip_map_lower.
Qed.

(** X19: header variants have one clean name.  A byte-order mark in
    front of a header, whitespace around it, and the letter case of an
    ASCII header do not change the key under which the header is stored
    and looked up. *)
Theorem clean_ignores_variants :
  (forall h, clean (Some (BOM :: h)) = clean (Some h))
  /\ (forall a h b, blank a = true -> blank b = true ->
                    clean (Some (a ++ h ++ b)) = clean (Some h))
  /\ (forall h1 h2, is_ascii h1 = true -> is_ascii h2 = true ->
                    map ascii_lower h1 = map ascii_lower h2 ->
                    clean (Some h1) = clean (Some h2)).
Proof.
  split; [exact clean_BOM|]. split; [exact clean_padded|].
  intros h1 h2 H1 H2 Heq. by rewrite !clean_ascii, Heq.
Qed.

(** ** Well-formed rows, built row by row *)

Lemma well_formed_row_empty : well_formed_row ∅.
Proof. intros k v Hk. by rewrite lookup_empty in Hk. Qed.

Lemma well_formed_row_insert (k : pystr) (v : option pystr)
    (row : gmap pystr (option pystr)) :
  match v with Some t => well_formed t = true | None => True end ->
  well_formed_row row -> well_formed_row (<[k := v]> row).
Proof.
  intros Hv Hrow k' v' Hk. rewrite lookup_insert in Hk.
  case_decide; [|by apply (Hrow k')]. by injection Hk as ->.
Qed.


(** ** Rejected and accepted rows *)

(** A column that gives nothing leaves its field absent. *)
Lemma safe_str_absent (v : option pystr) :
  absent_or_blank v -> safe_str v = None.
Proof.
  destruct v as [s|]; [|done]. simpl. intros Hs%strip_nil. by rewrite Hs.
Qed.

(** So does the lead identifier when none of its columns gives a text. *)
Lemma lead_id_absent (row header_map : gmap pystr (option pystr)) :
  Forall (fun k => absent_or_blank (get_val row header_map [k])) LEAD_KEYS ->
  match pick_lead_id row header_map with
  | Some l => or_None (strip l)
  | None => None
  end = None.
Proof.
  unfold pick_lead_id, LEAD_KEYS. intros Hk.
  apply Forall_cons in Hk as [H1 Hk]. apply Forall_cons in Hk as [H2 Hk].
  apply Forall_cons in Hk as [H3 _].
  assert (Hb : forall c v, blank (c :: v) = true ->
                           or_None (strip (strip (c :: v))) = None).
  { intros c v Hb%strip_nil. by rewrite Hb. }
  rewrite !pick_lead_id_go_cons.
  destruct (get_val row header_map [lit "lead_id"]) as [[|c1 v1]|] eqn:E1;
    [|by apply Hb|];
    (destruct (get_val row header_map [lit "vendor_lead_code"])
       as [[|c2 v2]|] eqn:E2; [|by apply Hb|]);
    (destruct (get_val row header_map [lit "LeadID"]) as [[|c3 v3]|];
       [|by apply Hb|]);
    cbn [pick_lead_id_go]; rewrite lead_id_fallback_None;
    by rewrite ?E1, ?E2.
Qed.

(** One more row of the loop: the iteration ends in [st'] and the loop
    goes on from there. *)
Lemma row_loop_next (source_file : pystr)
    (header_map : gmap pystr (option pystr)) (st st' : loop_state)
    (row : gmap pystr (option pystr))
    (rest : list (gmap pystr (option pystr))) :
  snd (loop_body cfg source_file header_map st row) = Ok st' ->
  snd (row_loop cfg source_file header_map st (row :: rest))
  = snd (row_loop cfg source_file header_map st' rest).
Proof.
  intros Hb. simpl.
  destruct (loop_body _ _ _ _ _) as [out r]. simpl in Hb. rewrite Hb.
  by destruct (row_loop _ _ _ _ rest).
Qed.

(** C5: a row is rejected exactly when the resolver answers
    "unparseable" for its call date, which is exactly when no format
    parses the text of its [call_date]: no other field, not even an
    invalid [gmt_offset_now], can reject a row.  A rejected row adds one
    to [total] and to [bad], leaves [good] and the buffer as they were,
    and the loop goes on with the next row.  An accepted row is one
    whose call date parsed; it adds one to [total] and to [good], leaves
    [bad] as it was and appends its line to the buffer, and the loop
    goes on.  A row whose call date parses is never counted in [bad],
    and is accepted whenever its text is well formed, whatever its other
    columns hold.  In the record of an accepted row every optional field
    whose column is missing or blank is absent: the nine text fields,
    Phone, and LeadID when none of its three columns gives a text. *)
Theorem row_rejected_iff_unparseable (source_file : pystr)
    (header_map row : gmap pystr (option pystr)) (st : loop_state)
    (rest : list (gmap pystr (option pystr))) :
  (snd (process_row cfg source_file header_map row) = Ok Rejected
   <-> row_instant cfg header_map row = Ok None)
  /\ (row_instant cfg header_map row = Ok None
      <-> no_format_matches (field row header_map "call_date"))
  /\ (row_instant cfg header_map row = Ok None ->
      let st' := mk_loop (total st + 1) (good st) (bad st + 1) (buf st) in
      snd (loop_body cfg source_file header_map st row) = Ok st'
      /\ snd (row_loop cfg source_file header_map st (row :: rest))
         = snd (row_loop cfg source_file header_map st' rest))
  /\ (forall m,
        snd (process_row cfg source_file header_map row) = Ok (Accepted m) ->
        let st' :=
          mk_loop (total st + 1) (good st + 1) (bad st)
            (buf st ++ json_dumps m ++ lit (String "010" "")) in
        (exists r, row_instant cfg header_map row = Ok (Some r))
        /\ snd (loop_body cfg source_file header_map st row) = Ok st'
        /\ snd (row_loop cfg source_file header_map st (row :: rest))
           = snd (row_loop cfg source_file header_map st' rest))
  /\ (forall r,
        row_instant cfg header_map row = Ok (Some r) ->
        (forall st',
           snd (loop_body cfg source_file header_map st row) = Ok st' ->
           bad st' = bad st /\ good st' = good st + 1)
        /\ (well_formed_row row ->
            exists m,
              snd (process_row cfg source_file header_map row)
              = Ok (Accepted m)))
  /\ (forall m,
        snd (process_row cfg source_file header_map row) = Ok (Accepted m) ->
        Forall (fun p => absent_or_blank (fst p) -> snd p = None)
          (optional_fields row header_map m)
        /\ (get_val row header_map
              [lit "phone_number_dialed"; lit "phone_number"] = None ->
            Phone m = None)
        /\ (Forall (fun k => absent_or_blank (get_val row header_map [k]))
              LEAD_KEYS ->
            LeadID m = None)).
Proof.
  assert (Hrej : snd (process_row cfg source_file header_map row) = Ok Rejected
                 <-> row_instant cfg header_map row = Ok None).
  { unfold process_row, row_instant, field.
    destruct (tz_from_row_offset _) as [row_tz|e]; [|done].
    destruct (parse_date_local _ _ _) as [out [[[src_txt dt_utc]|]|e]];
      simpl; [|done..].
    destruct (map_row _ _ _ _ _ _ _); simpl; split; discriminate. }
  assert (Hbody : forall o,
            snd (process_row cfg source_file header_map row) = Ok o ->
            snd (loop_body cfg source_file header_map st row)
            = Ok match o with
                 | Rejected =>
                     mk_loop (total st + 1) (good st) (bad st + 1) (buf st)
                 | Accepted m =>
                     mk_loop (total st + 1) (good st + 1) (bad st)
                       (buf st ++ json_dumps m ++ lit (String "010" ""))
                 end).
  { intros o Ho. unfold loop_body.
    destruct (process_row _ _ _ _) as [out r]. simpl in *. rewrite Ho.
    by destruct o. }
  split; [exact Hrej|]. split; [apply row_instant_None|].
  split; [|split; [|split]].
  - intros Hi. apply Hrej in Hi. apply Hbody in Hi. cbv zeta.
    split; [exact Hi|]. by apply row_loop_next.
  - intros m Hm. cbv zeta. split.
    { apply process_row_accepted in Hm as (tz & txt & d & _ & Hi & _).
      by exists (txt, d). }
    apply Hbody in Hm. split; [exact Hm|]. by apply row_loop_next.
  - intros r Hi. split.
    + intros st' Hb.
      destruct (snd (process_row cfg source_file header_map row))
        as [[|m]|e] eqn:Ho.
      * destruct Hrej as [Hr _]. rewrite (Hr eq_refl) in Hi. discriminate.
      * rewrite (Hbody _ eq_refl) in Hb. by injection Hb as <-.
      * unfold loop_body in Hb.
        destruct (process_row _ _ _ _) as [out r']. simpl in *.
        rewrite Ho in Hb. discriminate.
    + intros Hrow. revert Hi. unfold row_instant, process_row, field.
      destruct (tz_from_row_offset _) as [row_tz|e]; [|discriminate].
      destruct (parse_date_local cfg _ row_tz) as [out [[[txt d]|]|e]];
        cbn [fst snd]; [|discriminate..]. intros _.
      destruct (map_row_total source_file row header_map row_tz txt d Hrow)
        as (m & Hm & _).
      rewrite Hm. by exists m.
  - intros m Hm.
    apply process_row_accepted in Hm as (tz & txt & d & _ & _ & Hm).
    unfold map_row in Hm. apply bind_Ok in Hm as (data & _ & [= <-]).
    unfold optional_fields. cbn [FirstName LastName Address CallNotes
      TalkTime Email ListDescription ListID Disposition Phone LeadID].
    split; [|split].
    + repeat (constructor; [apply safe_str_absent|]). constructor.
    + intros Hp.
      change (normalize_phone
                (get_val row header_map
                   [lit "phone_number_dialed"; lit "phone_number"]) = None).
      by rewrite Hp.
    + apply lead_id_absent.
Qed.
End Properties.

(** * Closed examples *)

#[local] Existing Instance ascii_unicode.
#[local] Existing Instance no_zones.
#[local] Existing Instance example_codecs.

Local Open Scope Z_scope.

(** C1, as the specification writes it: with the phone number in a column named
    [phone], which the mapper does not read, the scenario row is accepted
    without a Phone, and its DedupKey starts with the separator. *)
Lemma scenario_phone_column_not_read :
  scenario_fields
    (scenario default_config (lit "gs://call-exports/day1.csv") (lit "phone"))
  = Some (None, lit "2025-09-02T15:02:00+00:00",
          lit "|L1|A|SALE|2025-09-02 15:02").
Proof. vm_compute. reflexivity. Qed.


(** C7, as the specification writes it: an empty header and a null header each
    leave an entry under the empty key. *)
Lemma empty_header_is_kept :
  normalize_headers (Some [Some (lit "phone_number"); Some []]) !! []
  = Some (Some [])
  /\ normalize_headers (Some [Some (lit "phone_number"); None]) !! []
     = Some None.
Proof. split; vm_compute; reflexivity. Qed.


(** C7 at a file with a blank header. *)
Lemma normalize_headers_keeps_empty_witness :
  exists h',
    normalize_headers (Some [Some (lit "phone"); Some (lit "  "); None]) !! []
    = Some h'
    /\ h' ∈ [Some (lit "phone"); Some (lit "  "); None]
    /\ clean h' = [].
Proof.
  apply (normalize_headers_keeps_empty _ (Some (lit "  "))).
  - apply list_elem_of_further, list_elem_of_here.
  - vm_compute. reflexivity.
Defined.

(** C9 at an upload under [other/]. *)
Lemma main_skips_foreign_objects_witness :
  main default_config foreign_event (example_world (lit "rejected"))
  = (Ok tt, example_world (lit "rejected")).
Proof. apply main_skips_foreign_objects. vm_compute. reflexivity. Defined.

(** C8 at a file with one accepted and one rejected row. *)
Lemma counters_add_up_witness :
  exists w',
    main default_config example_event (example_world (lit "two rows"))
    = (Ok tt, w')
    /\ List.filter is_audit (calls w')
       = [ audit_insert (lit "gs://call-exports/call-exports/day1.csv") 2 1
             (lit "Processed good=1, bad=1") ].
Proof.
  destruct (counters_add_up default_config example_event
              (example_world (lit "two rows")) (lit "two rows")
              (fst (file_loop default_config (ev_bucket example_event)
                      (ev_name example_event) (lit "two rows")))
              (mk_loop 2 1 1
                 (lit "5551234567|L1|A|SALE|2025-09-02 15:02"
                  ++ lit (String "010" ""))))
    as (_ & _ & _ & _ & _ & w' & Hmain & Haudit);
    [vm_compute; reflexivity..|].
  exists w'. split; [exact Hmain|]. rewrite Haudit. reflexivity.
Defined.


(** * Closed examples of the further properties *)

(** X1 at a padded name. *)
Lemma safe_str_shape_witness :
  safe_str (Some (lit "Ann")) = Some (lit "Ann") /\ trimmed (lit "Ann").
Proof.
  destruct (safe_str_shape (Some (lit "  Ann "))) as [_ Hshape].
  destruct (Hshape (lit "Ann")) as (_ & _ & Ht & Hfix);
    [vm_compute; reflexivity|].
  split; [exact Hfix|exact Ht].
Defined.

(** X2 at the phone number of the scenario. *)
Lemma normalize_phone_shape_witness :
  forallb isdecimal (lit "5551234567") = true
  /\ normalize_phone (Some (lit "5551234567")) = Some (lit "5551234567").
Proof.
  destruct (normalize_phone_shape (Some (lit "555-123-4567")))
    as [_ Hshape].
  destruct (Hshape (lit "5551234567")) as (_ & _ & Hd & Hfix);
    [vm_compute; reflexivity|].
  split; [exact Hd|exact Hfix].
Defined.

(** X3 at a file with the call date twice: the later column is read. *)
Lemma get_val_reads_last_header_witness :
  get_val variant_row (normalize_headers (Some variant_headers))
    [lit "call_date"]
  = Some (lit "9/2/25 11:02").
Proof.
  assert (Hc : clean (Some variant_header) = clean (Some (lit "call_date")))
    by (vm_compute; reflexivity).
  assert (Hpost : Forall (fun h' => clean h' <> clean (Some (lit "call_date")))
                    [Some (lit "status")]).
  { constructor; [|constructor]. vm_compute. discriminate. }
  pose proof (get_val_reads_last_header [Some (lit "call_date")]
                [Some (lit "status")] variant_header variant_row
                (lit "call_date") [] Hc Hpost) as Hlast.
  cbv zeta in Hlast. etransitivity; [exact Hlast|].
  vm_compute. reflexivity.
Defined.

(** X4 at the scenario file with its phone column named [phone]. *)
Lemma get_val_missing_column_witness :
  get_val (scenario_row (lit "phone"))
    (normalize_headers (scenario_headers (lit "phone")))
    [lit "phone_number_dialed"; lit "phone_number"]
  = None.
Proof.
  apply get_val_missing_column. intros cand h Hc Hh.
  apply list_elem_of_In in Hc. apply list_elem_of_In in Hh.
  simpl in Hc, Hh.
  repeat (destruct Hc as [<-|Hc];
          [repeat (destruct Hh as [<-|Hh]; [vm_compute; discriminate|]);
           destruct Hh|]).
  destruct Hc.
Defined.

(** X5 at the phone number of the scenario row. *)
Lemma get_val_from_row_witness :
  exists cand h,
    cand ∈ [lit "phone_number_dialed"; lit "phone_number"]
    /\ Some h ∈ default [] (scenario_headers (lit "phone_number"))
    /\ clean (Some h) = clean (Some cand)
    /\ scenario_row (lit "phone_number") !! h
       = Some (Some (lit "555-123-4567")).
Proof.
  apply get_val_from_row. vm_compute. reflexivity.
Defined.

(** X7 at the call date of the scenario: five formats fail, the sixth
    reads 11:02, which is 15:02 in UTC. *)
Lemma parse_date_local_first_match_witness :
  parse_date_local default_config (Some (lit " 9/2/25 11:02 "))
    (Some (timezone (- 4)))
  = (map (parse_failed_msg (lit "9/2/25 11:02"))
       [ lit "%Y-%m-%d %H:%M:%S"; lit "%Y-%m-%d %H:%M";
         lit "%m/%d/%Y %H:%M:%S"; lit "%m/%d/%Y %H:%M";
         lit "%m/%d/%y %H:%M:%S" ],
     Ok (Some (lit "9/2/25 11:02", mk_datetime 2025 9 2 15 2 0))).
Proof.
  apply (parse_date_local_first_match default_config
           (lit " 9/2/25 11:02 ") (Some (timezone (- 4)))
           [ lit "%Y-%m-%d %H:%M:%S"; lit "%Y-%m-%d %H:%M";
             lit "%m/%d/%Y %H:%M:%S"; lit "%m/%d/%Y %H:%M";
             lit "%m/%d/%y %H:%M:%S" ]
           (lit "%m/%d/%y %H:%M")
           [ lit "%m/%d/%y %I:%M %p"; lit "%m/%d/%Y %I:%M %p" ]
           (mk_datetime 2025 9 2 11 2 0) (timezone (- 4))).
  - reflexivity.
  - repeat (constructor; [exists ValueError; vm_compute; reflexivity|]).
    constructor.
  - vm_compute. reflexivity.
  - reflexivity.
Defined.

(** X8 at the call date "n/a": eight lines, then unparseable. *)
Lemma parse_date_local_unparseable_witness :
  parse_date_local default_config (Some (lit "n/a")) None
  = (map (parse_failed_msg (lit "n/a")) DT_FORMATS, Ok None).
Proof.
  apply (parse_date_local_unparseable default_config (Some (lit "n/a")) None).
  unfold no_format_matches, DT_FORMATS.
  repeat (constructor; [exists ValueError; vm_compute; reflexivity|]).
  constructor.
Defined.

(** X18 at two folders with one base name. *)
Lemma processed_key_is_base_name_witness :
  processed_key (lit "call-exports/east" ++ lit "/" ++ lit "day1.csv")
  = processed_key (lit "call-exports/west" ++ lit "/" ++ lit "day1.csv").
Proof.
  destruct (processed_key_is_base_name []) as [_ Hsame].
  apply Hsame. reflexivity.
Defined.

(** X19 at a header with a byte-order mark, blanks and capitals. *)
Lemma clean_ignores_variants_witness :
  clean (Some (BOM :: lit "  Call_Date ")) = clean (Some (lit "call_date")).
Proof.
  destruct clean_ignores_variants as (Hbom & Hpad & Hcase).
  rewrite Hbom.
  change (lit "  Call_Date ") with (lit "  " ++ lit "Call_Date" ++ lit " ").
  rewrite Hpad by reflexivity.
  apply Hcase; reflexivity.
Defined.

(** X15 at a file whose only row is rejected. *)
Lemma main_twice_witness :
  exists w',
    main default_config example_event (example_world (lit "rejected"))
    = (Ok tt, w')
    /\ main default_config example_event w'
       = (Raise NotFound,
          log_call (download_as_text (ev_bucket example_event)
                      (ev_name example_event)) w').
Proof.
  apply (main_twice default_config example_event
           (example_world (lit "rejected")) (lit "rejected")
           (fst (file_loop default_config (ev_bucket example_event)
                   (ev_name example_event) (lit "rejected")))
           (mk_loop 1 0 1 []));
    vm_compute; reflexivity.
Defined.


(** X10 at two exports of one call: no field holds the separator, the
    keys are equal, and so are the fields. *)
Lemma dedup_key_injective_without_pipes_witness :
  exists m1 m2,
    snd (process_row default_config (lit "gs://call-exports/day1.csv")
           (normalize_headers export_headers)
           (export_row "2025-09-02 11:02:10" "Ann")) = Ok (Accepted m1)
    /\ snd (process_row default_config (lit "gs://call-exports/day2.csv")
              (normalize_headers export_headers)
              (export_row "09/02/2025 11:02:55" "Bob")) = Ok (Accepted m2)
    /\ identity_fields m1 = identity_fields m2
    /\ strftime_minute (mk_datetime 2025 9 2 15 2 10)
       = strftime_minute (mk_datetime 2025 9 2 15 2 55).
Proof.
  destruct (snd (process_row default_config (lit "gs://call-exports/day1.csv")
                   (normalize_headers export_headers)
                   (export_row "2025-09-02 11:02:10" "Ann")))
    as [[|m1]|e1] eqn:E1;
    [vm_compute in E1; discriminate| |vm_compute in E1; discriminate].
  destruct (snd (process_row default_config (lit "gs://call-exports/day2.csv")
                   (normalize_headers export_headers)
                   (export_row "09/02/2025 11:02:55" "Bob")))
    as [[|m2]|e2] eqn:E2;
    [vm_compute in E2; discriminate| |vm_compute in E2; discriminate].
  exists m1, m2. split; [reflexivity|]. split; [reflexivity|].
  assert (Hi1 : row_instant default_config (normalize_headers export_headers)
                  (export_row "2025-09-02 11:02:10" "Ann")
                = Ok (Some (lit "2025-09-02 11:02:10",
                            mk_datetime 2025 9 2 15 2 10)))
    by (vm_compute; reflexivity).
  assert (Hi2 : row_instant default_config (normalize_headers export_headers)
                  (export_row "09/02/2025 11:02:55" "Bob")
                = Ok (Some (lit "09/02/2025 11:02:55",
                            mk_datetime 2025 9 2 15 2 55)))
    by (vm_compute; reflexivity).
  assert (H1 := E1). vm_compute in H1. injection H1 as H1.
  assert (H2 := E2). vm_compute in H2. injection H2 as H2.
  apply (dedup_key_injective_without_pipes default_config _ _ _ _ _ _
           m1 m2 _ _ _ _ E1 Hi1 E2 Hi2);
    rewrite <- ?H1, <- ?H2; reflexivity.
Defined.



(** X13 at three rows: the scenario row is accepted, the second row
    raises, and the third is not read. *)
Lemma row_loop_stops_at_exception_witness :
  row_loop default_config (lit "gs://call-exports/day1.csv")
    (normalize_headers (scenario_headers (lit "phone_number"))) loop_init
    ([scenario_row (lit "phone_number")]
     ++ overflow_row :: [unparseable_row])
  = (map (parse_failed_msg (lit "9/2/25 11:02"))
       [ lit "%Y-%m-%d %H:%M:%S"; lit "%Y-%m-%d %H:%M";
         lit "%m/%d/%Y %H:%M:%S"; lit "%m/%d/%Y %H:%M";
         lit "%m/%d/%y %H:%M:%S" ] ++ [],
     Raise OverflowError).
Proof.
  apply (row_loop_stops_at_exception default_config
           (lit "gs://call-exports/day1.csv")
           (normalize_headers (scenario_headers (lit "phone_number")))
           loop_init
           (mk_loop 1 1 0
              (lit "5551234567|L1|A|SALE|2025-09-02 15:02"
               ++ lit (String "010" ""))));
    vm_compute; reflexivity.
Defined.

(** X17 at the scenario row: the override is UTC-4 and the record is
    labelled with it, not with the configured UTC-7. *)
Lemma row_zone_and_label_witness :
  exists m,
    scenario default_config (lit "gs://call-exports/day1.csv")
      (lit "phone_number") = Ok (Accepted m)
    /\ SourceTimezone m = lit "UTC-04:00".
Proof.
  unfold scenario.
  destruct (snd (process_row default_config (lit "gs://call-exports/day1.csv")
                   (normalize_headers (scenario_headers (lit "phone_number")))
                   (scenario_row (lit "phone_number"))))
    as [[|m]|e] eqn:E;
    [vm_compute in E; discriminate| |vm_compute in E; discriminate].
  exists m. split; [reflexivity|].
  pose proof (row_zone_and_label default_config _ _ _ m E) as Hzone.
  cbv zeta in Hzone.
  destruct Hzone as [_ [[Hnone _]|(h & _ & Hint & _ & Hlabel)]].
  - vm_compute in Hnone. discriminate Hnone.
  - vm_compute in Hint. injection Hint as <-.
    rewrite Hlabel. vm_compute. reflexivity.
Defined.

(** * Rows and files at the edges *)

(** [int] does not skip the separators U+001C to U+001F, which
    [str.strip] removes: inside a configured zone they make the offset
    unreadable, around a row-level offset they are stripped first. *)
Lemma separators_around_an_offset :
  resolve_tz (Some (lit "UTC" ++ [28%N] ++ lit "-7")) = Ok UTC
  /\ resolve_tz (Some (lit "UTC" ++ [NBSP] ++ lit "-7")) = Ok (timezone (- 7))
  /\ tz_from_row_offset (Some ([28%N] ++ lit "-4" ++ [31%N]))
     = Ok (Some (timezone (- 4))).
Proof. repeat split; vm_compute; reflexivity. Qed.

(** C5 at a row whose call date is "n/a", which is counted in [bad], and
    at the scenario row, which is counted in [good], has its line in the
    buffer and, its file having no column for them, no FirstName and no
    Email. *)
Lemma row_rejected_iff_unparseable_witness :
  snd (loop_body default_config (lit "gs://call-exports/day1.csv")
         (normalize_headers (scenario_headers (lit "phone_number")))
         loop_init unparseable_row)
  = Ok (mk_loop 1 0 1 [])
  /\ snd (loop_body default_config (lit "gs://call-exports/day1.csv")
            (normalize_headers (scenario_headers (lit "phone_number")))
            loop_init (scenario_row (lit "phone_number")))
     = Ok (mk_loop 1 1 0
             (lit "5551234567|L1|A|SALE|2025-09-02 15:02"
              ++ lit (String "010" "")))
  /\ exists m,
       scenario default_config (lit "gs://call-exports/day1.csv")
         (lit "phone_number") = Ok (Accepted m)
       /\ FirstName m = None /\ Email m = None.
Proof.
  pose proof (row_rejected_iff_unparseable default_config
                (lit "gs://call-exports/day1.csv")
                (normalize_headers (scenario_headers (lit "phone_number")))
                unparseable_row loop_init [])
    as (_ & _ & Hrej & _).
  pose proof (row_rejected_iff_unparseable default_config
                (lit "gs://call-exports/day1.csv")
                (normalize_headers (scenario_headers (lit "phone_number")))
                (scenario_row (lit "phone_number")) loop_init [])
    as (_ & _ & _ & Hacc & Hparsed & Habsent).
  split.
  { apply Hrej. vm_compute. reflexivity. }
  assert (Hwf : well_formed_row (scenario_row (lit "phone_number"))).
  { unfold scenario_row.
    repeat (apply well_formed_row_insert; [reflexivity|]).
    apply well_formed_row_empty. }
  destruct (Hparsed (lit "9/2/25 11:02", mk_datetime 2025 9 2 15 2 0))
    as [_ Hm]; [vm_compute; reflexivity|].
  destruct (Hm Hwf) as [m E].
  destruct (Hacc m E) as (_ & Hb & _). cbv zeta in Hb.
  destruct (Habsent m E) as (Hf & _ & _).
  assert (H := E). vm_compute in H. injection H as H.
  split.
  { rewrite Hb. rewrite <- H. reflexivity. }
  exists m. split; [exact E|].
  apply Forall_cons in Hf as [Hfirst Hf].
  do 4 apply Forall_cons in Hf as [_ Hf].
  apply Forall_cons in Hf as [Hemail _].
  split; [apply Hfirst|apply Hemail]; by vm_compute.
Defined.

(** C6: where the code departs from the specification.  The comment of
    line 249 and the specification want a file without an accepted row
    audited and moved all the same, and a file with an accepted row
    loaded and merged; a file whose only row is rejected is indeed
    audited and moved.  A row whose call date overflows in the
    conversion to UTC makes the loop raise (the [except ValueError] of
    line 132 does not catch the OverflowError), and [main] ends there,
    after the download: a file whose only row is such a row has no
    accepted row, and is neither audited nor moved; a file with an
    accepted row before such a row gets no batch, no load and no merge
    (and no audit, no move).  Apart from that defect, when the input
    prefix is the archive folder itself the copy is made onto the object
    and the delete removes it: the file is in neither place. *)
Theorem overflowing_row_leaves_file_unaudited :
  let uri := lit "gs://call-exports/call-exports/day1.csv" in
  let header_map := normalize_headers two_column_headers in
  let download :=
    download_as_text (lit "call-exports") (lit "call-exports/day1.csv") in
  main (codecs := two_column_codecs) default_config example_event
    (example_world rejected_only_csv)
  = (Ok tt,
     mk_world
       {[ (lit "call-exports", lit "processed/day1.csv")
          := rejected_only_csv ]}
       [ download;
         audit_insert uri 1 1 (lit "Processed good=0, bad=1");
         copy_blob (lit "call-exports") (lit "call-exports/day1.csv")
           (lit "processed/day1.csv");
         delete_blob (lit "call-exports") (lit "call-exports/day1.csv") ]
       (map (parse_failed_msg (lit "n/a")) DT_FORMATS))
  /\ accepted_records (codecs := two_column_codecs) default_config uri
       header_map [overflow_row] = []
  /\ main (codecs := two_column_codecs) default_config example_event
       (example_world overflow_only_csv)
     = (Raise OverflowError,
        mk_world (blobs (example_world overflow_only_csv)) [download] [])
  /\ length
       (accepted_records (codecs := two_column_codecs) default_config uri
          header_map [accepted_row; overflow_row])
     = 1%nat
  /\ main (codecs := two_column_codecs) default_config example_event
       (example_world accepted_then_overflow_csv)
     = (Raise OverflowError,
        mk_world (blobs (example_world accepted_then_overflow_csv))
          [download] [])
  /\ main (codecs := two_column_codecs) processed_config processed_event
       (processed_world rejected_only_csv)
     = (Ok tt,
        mk_world ∅
          [ download_as_text (lit "call-exports") (lit "processed/day1.csv");
            audit_insert (lit "gs://call-exports/processed/day1.csv") 1 1
              (lit "Processed good=0, bad=1");
            copy_blob (lit "call-exports") (lit "processed/day1.csv")
              (lit "processed/day1.csv");
            delete_blob (lit "call-exports") (lit "processed/day1.csv") ]
          (map (parse_failed_msg (lit "n/a")) DT_FORMATS)).
Proof. repeat split; vm_compute; reflexivity. Qed.
